(* ====================================================================== *)
(*  Subtitle acquisition: the movie mass-download driver                   *)
(*  (bazarr/subtitles/mass_download/movies.py) and the FileFlows           *)
(*  job-based provider (custom_libs/subliminal_patch/providers/            *)
(*  fileflows.py), embedded shallowly and checked against their            *)
(*  natural-language specification.                                        *)
(* ====================================================================== *)

From Stdlib Require Import ZArith QArith Qminmax Qround Lia Lqa.
From Stdlib Require Import List Bool Ascii String.
From Stdlib Require Import DecimalString.
Import ListNotations.

Open Scope string_scope.
Open Scope list_scope.
Open Scope nat_scope.

(* ---------------------------------------------------------------------- *)
(** * Python values, exceptions and string methods                         *)
(* ---------------------------------------------------------------------- *)

(** The scalar Python values that reach the modelled code: constructor
    arguments, JSON scalars, job identifiers. *)
Inductive pyval : Type :=
| PNone
| PBool (b : bool)
| PInt (z : Z)
| PStr (s : string).

(** Python truthiness ([if v:], [not v]). *)
Definition truthy (v : pyval) : bool :=
  match v with
  | PNone => false
  | PBool b => b
  | PInt z => negb (z =? 0)%Z
  | PStr s => negb (s =? "")%string
  end.

(** The exceptions the modelled code can raise. *)
Inductive exn : Type :=
| AttributeError
| ValueError
| TypeError
| OSError
| SyntaxError
| ConfigurationError (msg : string).

(** A call either returns a value or raises. *)
Inductive outcome (A : Type) : Type :=
| Ret (a : A)
| Raise (e : exn).
Arguments Ret {A} a.
Arguments Raise {A} e.

Module PyStr.

(** [str(n)] for an int. *)
Definition str_of_Z (z : Z) : string :=
  NilZero.string_of_int (Z.to_int z).

(** [s.endswith(suffix)]: some tail of [s] is [suffix]. *)
Fixpoint endswith (s suffix : string) : bool :=
  (s =? suffix)%string ||
  match s with
  | EmptyString => false
  | String _ s' => endswith s' suffix
  end.

(** [s.split(sep)] for a one-character separator; never empty. *)
Fixpoint split (sep : ascii) (s : string) : list string :=
  match s with
  | EmptyString => [EmptyString]
  | String c s' =>
      if Ascii.eqb c sep then EmptyString :: split sep s'
      else match split sep s' with
           | [] => [String c EmptyString]
           | w :: ws => String c w :: ws
           end
  end.

(** [s.rstrip(c)] for a one-character set. *)
Fixpoint rstrip (c : ascii) (s : string) : string :=
  match s with
  | EmptyString => EmptyString
  | String a s' =>
      match rstrip c s' with
      | EmptyString => if Ascii.eqb a c then EmptyString else String a EmptyString
      | r => String a r
      end
  end.

Definition upper_ascii (a : ascii) : ascii :=
  let n := nat_of_ascii a in
  if (97 <=? n) && (n <=? 122) then ascii_of_nat (n - 32) else a.

(** [s.upper()] on ASCII text. *)
Fixpoint upper (s : string) : string :=
  match s with
  | EmptyString => EmptyString
  | String a s' => String (upper_ascii a) (upper s')
  end.

(** No occurrence of the character [c] in [s]. *)
Fixpoint lacks (c : ascii) (s : string) : bool :=
  match s with
  | EmptyString => true
  | String a s' => negb (Ascii.eqb a c) && lacks c s'
  end.

(** [str(v)] as used inside f-strings. *)
Definition str (v : pyval) : string :=
  match v with
  | PNone => "None"
  | PBool true => "True"
  | PBool false => "False"
  | PInt z => str_of_Z z
  | PStr s => s
  end.

End PyStr.

(* ---------------------------------------------------------------------- *)
(** * movies.py : movies_download_subtitles                                *)
(* ---------------------------------------------------------------------- *)

Module Movies.

(** The row selected from TableMovies.  [missing_subtitles] holds the
    value of [ast.literal_eval(movie.missing_subtitles)]: a list whose
    entries are language tags or [None]. *)
Record Movie : Type := {
  path : string;
  missing_subtitles : list (option string);
  audio_language : string;
  radarrId : Z;
  sceneName : option string;
  title : string;
  tags : string;
  monitored : bool;
  profileId : Z
}.

(** One element of the list returned by get_audio_profile_languages. *)
Record AudioLanguage : Type := { name : string }.

(** A language request as built by the loop: (base, hi_, forced_), the
    flags being the strings "True" / "False". *)
Definition LanguageRequest : Type := (string * string * string)%type.

(** What generate_subtitles reports for one materialized subtitle. *)
Record SubResult : Type := {
  message : string;
  res_language : string;
  res_provider : string
}.

(** A value yielded by the generate_subtitles generator. *)
Inductive Yielded : Type :=
| YNone
| YTuple (items : list SubResult)
| YResult (r : SubResult).

(** Truthiness of a yielded value: None and the empty tuple are falsy. *)
Definition yielded_truthy (y : Yielded) : bool :=
  match y with
  | YNone => false
  | YTuple [] => false
  | YTuple (_ :: _) => true
  | YResult _ => true
  end.

(** The value a Python call hands back to its caller. *)
Inductive pyobj : Type :=
| ONone
| OResults (rs : list SubResult).

(** Observable calls into the collaborators, in program order. *)
Inductive Event : Type :=
| EvDebug (msg arg : string)
| EvGetProviders
| EvInfo (msg : string)
| EvShowProgress (id header name : string) (value count : nat)
| EvGenerate (moviePath : string) (languages : list LanguageRequest)
             (audio_language sceneName title media_type : string)
             (profileId : Z) (check_if_still_required : bool)
| EvStore (path moviePath : string)
| EvHistory (action no : Z) (result : SubResult)
| EvNotify (no : Z) (message : string)
| EvHideProgress (id : string).

(** The imported collaborators.  [providers_at i] is the list
    get_providers() returns at its i-th call of the process. *)
Record Collaborators : Type := {
  db_first : Z -> option Movie;
  path_replace_movie : string -> string;
  os_path_exists : string -> bool;
  get_audio_profile_languages : string -> list AudioLanguage;
  providers_at : nat -> list string;
  generate_subtitles :
    string -> list LanguageRequest -> string -> string -> string ->
    string -> Z -> bool -> list Yielded
}.

(** Mutable state outside the function: how often the registry has been
    queried, and the calls made so far. *)
Record World : Type := {
  queries : nat;
  events : list Event
}.

Definition M (A : Type) : Type := World -> outcome A * World.

Definition ret {A} (a : A) : M A := fun w => (Ret a, w).
Definition raise {A} (e : exn) : M A := fun w => (Raise e, w).
Definition bind {A B} (m : M A) (k : A -> M B) : M B :=
  fun w =>
    match m w with
    | (Ret a, w') => k a w'
    | (Raise e, w') => (Raise e, w')
    end.

Notation "x <- m ;; k" := (bind m (fun x => k))
  (at level 61, m at next level, right associativity).
Notation "m ;;; k" := (bind m (fun _ => k))
  (at level 61, right associativity).

Definition emit (e : Event) : M unit :=
  fun w => (Ret tt, {| queries := queries w; events := events w ++ [e] |}).

Section Driver.

Variable env : Collaborators.

Definition get_providers : M (list string) :=
  fun w =>
    (Ret (providers_at env (queries w)),
     {| queries := S (queries w);
        events := events w ++ [EvGetProviders] |}).

(** Lines 64-66: the tuple appended for a non-None entry. *)
Definition entry_request (language : string) : LanguageRequest :=
  let hi_ := if PyStr.endswith language ":hi" then "True" else "False" in
  let forced_ :=
    if PyStr.endswith language ":forced" then "True" else "False" in
  (hd EmptyString (PyStr.split ":" language), hi_, forced_).

(** Lines 59-69: the loop over the decoded entries. *)
Fixpoint languages_loop (entries : list (option string))
         (languages : list LanguageRequest) : M (list LanguageRequest) :=
  match entries with
  | [] => ret languages
  | language :: rest =>
      providers_list <- get_providers ;;
      match providers_list with
      | _ :: _ =>
          match language with
          | Some l => languages_loop rest (languages ++ [entry_request l])
          | None => languages_loop rest languages
          end
      | [] =>
          emit (EvInfo "BAZARR All providers are throttled") ;;;
          ret languages
      end
  end.

(** Lines 86-91: the body run for each yielded value. *)
Definition handle_result (movie : Movie) (moviePath : string) (no : Z)
           (result : Yielded) : M unit :=
  if yielded_truthy result then
    match (match result with
           | YTuple (r :: _) => Some r
           | YResult r => Some r
           | _ => None
           end) with
    | Some r =>
        emit (EvStore (path movie) moviePath) ;;;
        emit (EvHistory 1 no r) ;;;
        emit (EvNotify no (message r))
    | None => ret tt
    end
  else ret tt.

Fixpoint handle_results (movie : Movie) (moviePath : string) (no : Z)
         (ys : list Yielded) : M unit :=
  match ys with
  | [] => ret tt
  | y :: rest =>
      handle_result movie moviePath no y ;;;
      handle_results movie moviePath no rest
  end.

Definition progress_id (no : Z) : string :=
  ("movie_search_progress_" ++ PyStr.str_of_Z no)%string.

Definition str_sceneName (s : option string) : string :=
  match s with
  | Some x => x
  | None => "None"
  end.

Definition movies_download_subtitles (no : Z) : M pyobj :=
  match db_first env no with
  | None =>
      emit (EvDebug
              "BAZARR no movie with that radarrId can be found in database:"
              (PyStr.str_of_Z no)) ;;;
      ret ONone
  | Some movie =>
      let moviePath := path_replace_movie env (path movie) in
      if negb (os_path_exists env moviePath) then raise OSError
      else
        let count_movie :=
          match missing_subtitles movie with
          | _ :: _ => List.length (missing_subtitles movie)
          | [] => 0
          end in
        let audio_language_list :=
          get_audio_profile_languages env (audio_language movie) in
        let audio_language :=
          match audio_language_list with
          | a :: _ => name a
          | [] => "None"
          end in
        languages <- languages_loop (missing_subtitles movie) [] ;;
        emit (EvShowProgress (progress_id no)
                "Searching missing subtitles..."
                (title movie) 0 count_movie) ;;;
        let ys :=
          generate_subtitles env moviePath languages audio_language
            (str_sceneName (sceneName movie)) (title movie) "movie"
            (profileId movie) true in
        emit (EvGenerate moviePath languages audio_language
                (str_sceneName (sceneName movie)) (title movie) "movie"
                (profileId movie) true) ;;;
        handle_results movie moviePath no ys ;;;
        emit (EvHideProgress (progress_id no)) ;;;
        ret ONone
  end.

End Driver.

End Movies.

(* ---------------------------------------------------------------------- *)
(** * movies.py with the stored text of missing_subtitles                  *)
(* ---------------------------------------------------------------------- *)

Module MoviesRaw.

Unset Elimination Schemes.

(** A value [ast.literal_eval] can return; floats, bytes, sets and dicts
    are left out. *)
Inductive pylit : Type :=
| LNone
| LBool (b : bool)
| LInt (z : Z)
| LStr (s : string)
| LList (items : list pylit)
| LTuple (items : list pylit).

Set Elimination Schemes.

(** Truthiness of a literal ([if ast.literal_eval(...):], line 46). *)
Definition lit_truthy (v : pylit) : bool :=
  match v with
  | LNone => false
  | LBool b => b
  | LInt z => negb (z =? 0)%Z
  | LStr s => negb (s =? "")%string
  | LList [] => false
  | LList (_ :: _) => true
  | LTuple [] => false
  | LTuple (_ :: _) => true
  end.

(** The selected row as stored: [missing_subtitles] is the column's
    text, [None] for NULL. *)
Record Row : Type := {
  path : string;
  missing_subtitles : option string;
  audio_language : string;
  radarrId : Z;
  sceneName : option string;
  title : string;
  tags : string;
  monitored : bool;
  profileId : Z
}.

(** The database and the standard library's [ast.literal_eval]. *)
Record Store : Type := {
  select_first : Z -> option Row;
  literal_eval : option string -> outcome pylit
}.

(** The literal a decoded entry stands for. *)
Definition lit_of_entry (e : option string) : pylit :=
  match e with
  | Some s => LStr s
  | None => LNone
  end.

Section Driver.

Variable store : Store.
Variable env : Movies.Collaborators.

(** One evaluation of [ast.literal_eval(movie.missing_subtitles)]. *)
Definition eval_missing (movie : Row) : Movies.M pylit :=
  fun w => (literal_eval store (missing_subtitles movie), w).

(** [len(v)]. *)
Definition py_len (v : pylit) : Movies.M nat :=
  match v with
  | LStr s => Movies.ret (String.length s)
  | LList items => Movies.ret (List.length items)
  | LTuple items => Movies.ret (List.length items)
  | _ => Movies.raise TypeError
  end.

(** The items a [for] loop over [v] runs through. *)
Definition py_iter (v : pylit) : Movies.M (list pylit) :=
  match v with
  | LList items => Movies.ret items
  | LTuple items => Movies.ret items
  | LStr s =>
      Movies.ret (map (fun c => LStr (String c EmptyString))
                      (list_ascii_of_string s))
  | _ => Movies.raise TypeError
  end.

(** Lines 59-69 over the decoded items: [.endswith] exists on str only. *)
Fixpoint languages_loop (entries : list pylit)
         (languages : list Movies.LanguageRequest)
  : Movies.M (list Movies.LanguageRequest) :=
  match entries with
  | [] => Movies.ret languages
  | language :: rest =>
      Movies.bind (Movies.get_providers env) (fun providers_list =>
      match providers_list with
      | _ :: _ =>
          match language with
          | LNone => languages_loop rest languages
          | LStr l =>
              languages_loop rest (languages ++ [Movies.entry_request l])
          | _ => Movies.raise AttributeError
          end
      | [] =>
          Movies.bind
            (Movies.emit (Movies.EvInfo "BAZARR All providers are throttled"))
            (fun _ => Movies.ret languages)
      end)
  end.

(** Lines 86-91 for each yielded value. *)
Fixpoint handle_results (movie_path moviePath : string) (no : Z)
         (ys : list Movies.Yielded) : Movies.M unit :=
  match ys with
  | [] => Movies.ret tt
  | result :: rest =>
      Movies.bind
        (if Movies.yielded_truthy result then
           match (match result with
                  | Movies.YTuple (r :: _) => Some r
                  | Movies.YResult r => Some r
                  | _ => None
                  end) with
           | Some r =>
               Movies.bind (Movies.emit (Movies.EvStore movie_path moviePath))
                 (fun _ =>
               Movies.bind (Movies.emit (Movies.EvHistory 1 no r))
                 (fun _ =>
               Movies.emit (Movies.EvNotify no (Movies.message r))))
           | None => Movies.ret tt
           end
         else Movies.ret tt)
        (fun _ => handle_results movie_path moviePath no rest)
  end.

(** Lines 22-93, the stored text decoded where the source decodes it:
    at line 46, again at line 47 when the value is truthy, and at
    line 59. *)
Definition movies_download_subtitles (no : Z) : Movies.M Movies.pyobj :=
  match select_first store no with
  | None =>
      Movies.bind
        (Movies.emit
           (Movies.EvDebug
              "BAZARR no movie with that radarrId can be found in database:"
              (PyStr.str_of_Z no)))
        (fun _ => Movies.ret Movies.ONone)
  | Some movie =>
      let moviePath := Movies.path_replace_movie env (path movie) in
      if negb (Movies.os_path_exists env moviePath) then Movies.raise OSError
      else
        Movies.bind (eval_missing movie) (fun v =>
        Movies.bind
          (if lit_truthy v
           then Movies.bind (eval_missing movie) py_len
           else Movies.ret 0) (fun count_movie =>
        let audio_language_list :=
          Movies.get_audio_profile_languages env (audio_language movie) in
        let audio_language :=
          match audio_language_list with
          | a :: _ => Movies.name a
          | [] => "None"
          end in
        Movies.bind (eval_missing movie) (fun v' =>
        Movies.bind (py_iter v') (fun entries =>
        Movies.bind (languages_loop entries []) (fun languages =>
        Movies.bind
          (Movies.emit
             (Movies.EvShowProgress (Movies.progress_id no)
                "Searching missing subtitles..." (title movie) 0 count_movie))
          (fun _ =>
        let ys :=
          Movies.generate_subtitles env moviePath languages audio_language
            (Movies.str_sceneName (sceneName movie)) (title movie) "movie"
            (profileId movie) true in
        Movies.bind
          (Movies.emit
             (Movies.EvGenerate moviePath languages audio_language
                (Movies.str_sceneName (sceneName movie)) (title movie)
                "movie" (profileId movie) true))
          (fun _ =>
        Movies.bind (handle_results (path movie) moviePath no ys) (fun _ =>
        Movies.bind
          (Movies.emit (Movies.EvHideProgress (Movies.progress_id no)))
          (fun _ => Movies.ret Movies.ONone)))))))))
  end.

End Driver.

(** The row as the decoded driver sees it. *)
Definition decoded (movie : Row) (entries : list (option string))
  : Movies.Movie :=
  {| Movies.path := path movie;
     Movies.missing_subtitles := entries;
     Movies.audio_language := audio_language movie;
     Movies.radarrId := radarrId movie;
     Movies.sceneName := sceneName movie;
     Movies.title := title movie;
     Movies.tags := tags movie;
     Movies.monitored := monitored movie;
     Movies.profileId := profileId movie |}.

End MoviesRaw.

(* ---------------------------------------------------------------------- *)
(** * fileflows.py : FileFlowsSubtitle and FileFlowsProvider               *)
(* ---------------------------------------------------------------------- *)

Module FileFlows.

(** A JSON object as returned by [response.json()]. *)
Definition dict : Type := list (string * pyval).

(** [d.get(key)]: the value stored under [key], [None] when absent. *)
Fixpoint dict_get (d : dict) (key : string) : pyval :=
  match d with
  | [] => PNone
  | (k, v) :: d' => if (k =? key)%string then v else dict_get d' key
  end.

(** [v == s] for a string literal [s]. *)
Definition eq_str (v : pyval) (s : string) : bool :=
  match v with
  | PStr x => (x =? s)%string
  | _ => false
  end.

(** [v in [s1, s2, ...]]. *)
Definition in_strs (v : pyval) (l : list string) : bool :=
  existsb (eq_str v) l.

(** What a call on the requests session produces. *)
Inductive http_result : Type :=
| RequestException
| Response (status_code : Z) (json : dict).

Inductive VideoKind : Type := Episode | Movie | OtherVideo.

Record Video : Type := {
  original_name : string;
  original_path : string;
  kind : VideoKind
}.

Record Subtitle : Type := {
  language : string;
  video : Video;
  sub_workflow_id : pyval;
  job_id : pyval;
  content : option (list Byte.byte)
}.

Record Session : Type := {
  headers : list (string * string);
  closed : bool
}.

Record Provider : Type := {
  api_url : string;
  api_key : pyval;
  workflow_id : pyval;
  timeout : Z;
  session : option Session
}.

(** Requests that leave the process. *)
Inductive NetEvent : Type :=
| NetGet (url : string) (timeout : Z)
| NetPost (url : string) (filePath : string) (workflowId : pyval)
          (timeout : Z).

(** The remote service and the file system.  [get_reply i] answers the
    i-th GET of the process and takes [get_latency i] seconds. *)
Record Remote : Type := {
  os_path_exists : string -> bool;
  post_reply : string -> http_result;
  post_latency : Q;
  get_reply : nat -> http_result;
  get_latency : nat -> Q
}.

(** The clock, the GET counter, the seconds spent in [time.sleep], the
    requests sent, and the module logger's level. *)
Record World : Type := {
  now : Q;
  gets : nat;
  slept : Q;
  net : list NetEvent;
  log_level : Z
}.

Definition M (A : Type) : Type := World -> outcome A * World.

Definition ret {A} (a : A) : M A := fun w => (Ret a, w).
Definition raise {A} (e : exn) : M A := fun w => (Raise e, w).
Definition bind {A B} (m : M A) (k : A -> M B) : M B :=
  fun w =>
    match m w with
    | (Ret a, w') => k a w'
    | (Raise e, w') => (Raise e, w')
    end.

Notation "x <- m ;; k" := (bind m (fun x => k))
  (at level 61, m at next level, right associativity).
Notation "m ;;; k" := (bind m (fun _ => k))
  (at level 61, right associativity).

Definition Qltb (a b : Q) : bool := negb (Qle_bool b a).

(** [time.sleep(d)]. *)
Definition sleep (d : Q) (w : World) : World :=
  {| now := (now w + d)%Q; gets := gets w; slept := (slept w + d)%Q;
     net := net w; log_level := log_level w |}.

(** Line 173: [min(check_interval * 1.5, 60)]. *)
Definition next_interval (check_interval : Q) : Q :=
  Qmin (check_interval * (3 # 2)) 60.

(** The interval slept after the n-th unfinished poll (n from 0). *)
Fixpoint check_interval_seq (n : nat) : Q :=
  match n with
  | O => 10
  | S n' => next_interval (check_interval_seq n')
  end.

(** The upper-case level constants of the logging module. *)
Definition logging_level (nm : string) : option Z :=
  if (nm =? "CRITICAL")%string then Some 50%Z
  else if (nm =? "FATAL")%string then Some 50%Z
  else if (nm =? "ERROR")%string then Some 40%Z
  else if (nm =? "WARNING")%string then Some 30%Z
  else if (nm =? "WARN")%string then Some 30%Z
  else if (nm =? "INFO")%string then Some 20%Z
  else if (nm =? "DEBUG")%string then Some 10%Z
  else if (nm =? "NOTSET")%string then Some 0%Z
  else None.

(** Lines 19-21. [None.upper()] and [getattr] of an unknown name are
    attribute errors. *)
Definition set_log_level (newLevel : pyval) : M unit :=
  match newLevel with
  | PStr s =>
      let newLevel := PyStr.upper s in
      match logging_level newLevel with
      | Some lvl =>
          fun w => (Ret tt,
                    {| now := now w; gets := gets w; slept := slept w;
                       net := net w; log_level := lvl |})
      | None => raise AttributeError
      end
  | _ => raise AttributeError
  end.

(** Lines 44-50. *)
Definition get_matches (v : Video) : list string :=
  match kind v with
  | Episode => ["series"; "season"; "episode"]
  | Movie => ["title"]
  | OtherVideo => []
  end.

(** Lines 34-38. *)
Definition new_subtitle (language : string) (video : Video) : Subtitle :=
  {| language := language; video := video; sub_workflow_id := PNone;
     job_id := PNone; content := None |}.

(** Lines 40-42. *)
Definition subtitle_id (s : Subtitle) : string :=
  (original_name (video s) ++ "_" ++ PyStr.str (sub_workflow_id s) ++ "_"
   ++ language s)%string.

Section Provider.

(** [int(s)] on a str, the builtin's parser. *)
Variable int_of_str : string -> option Z.

Variable env : Remote.

(** [int(v)]. *)
Definition py_int (v : pyval) : M Z :=
  match v with
  | PInt z => ret z
  | PBool b => ret (if b then 1%Z else 0%Z)
  | PStr s =>
      match int_of_str s with
      | Some z => ret z
      | None => raise ValueError
      end
  | PNone => raise TypeError
  end.

(** Lines 60-82. *)
Definition __init__ (api_url api_key workflow_id timeout loglevel : pyval)
  : M Provider :=
  set_log_level loglevel ;;;
  if negb (truthy api_url) then
    raise (ConfigurationError "FileFlows API URL must be provided")
  else if negb (truthy api_key) then
    raise (ConfigurationError "FileFlows API Key must be provided")
  else if negb (truthy workflow_id) then
    raise (ConfigurationError "FileFlows Workflow ID must be provided")
  else if negb (truthy timeout) then
    raise (ConfigurationError "FileFlows API timeout must be provided")
  else
    url <- match api_url with
           | PStr s => ret (PyStr.rstrip "/" s)
           | _ => raise AttributeError
           end ;;
    t <- py_int timeout ;;
    ret {| api_url := url; api_key := api_key;
           workflow_id := workflow_id; timeout := t; session := None |}.

(** Lines 84-91. *)
Definition initialize (p : Provider) : Provider :=
  {| api_url := api_url p; api_key := api_key p;
     workflow_id := workflow_id p; timeout := timeout p;
     session :=
       Some {| headers :=
                 [("Content-Type", "application/json");
                  ("Authorization",
                   ("Bearer " ++ PyStr.str (api_key p))%string)];
               closed := false |} |}.

(** Lines 93-95. *)
Definition terminate (p : Provider) : Provider :=
  match session p with
  | Some s =>
      {| api_url := api_url p; api_key := api_key p;
         workflow_id := workflow_id p; timeout := timeout p;
         session := Some {| headers := headers s; closed := true |} |}
  | None => p
  end.

(** [self.session.get(url, timeout=t)]; without a session the
    attribute lookup on [None] fails. *)
Definition session_get (p : Provider) (url : string) (t : Z)
  : M http_result :=
  match session p with
  | None => raise AttributeError
  | Some _ =>
      fun w =>
        (Ret (get_reply env (gets w)),
         {| now := (now w + get_latency env (gets w))%Q;
            gets := S (gets w); slept := slept w;
            net := net w ++ [NetGet url t];
            log_level := log_level w |})
  end.

(** [self.session.post(url, data=json.dumps(payload), timeout=t)]. *)
Definition session_post (p : Provider) (url file_path : string)
           (wf : pyval) (t : Z) : M http_result :=
  match session p with
  | None => raise AttributeError
  | Some _ =>
      fun w =>
        (Ret (post_reply env file_path),
         {| now := (now w + post_latency env)%Q;
            gets := gets w; slept := slept w;
            net := net w ++ [NetPost url file_path wf t];
            log_level := log_level w |})
  end.

(** Lines 97-103. *)
Definition ping (p : Provider) : M bool :=
  response <- session_get p (api_url p ++ "/api/status")%string 10 ;;
  match response with
  | Response code _ => ret (code =? 200)%Z
  | RequestException => ret false
  end.

(** Lines 105-131. *)
Definition submit_file_to_workflow (p : Provider) (file_path : string)
  : M pyval :=
  if negb (os_path_exists env file_path) then ret PNone
  else
    response <- session_post p (api_url p ++ "/api/flow/process")%string
                  file_path (workflow_id p) (timeout p) ;;
    match response with
    | Response code job_data =>
        if (code =? 200)%Z then ret (dict_get job_data "uid")
        else ret PNone
    | RequestException => ret PNone
    end.

(** Lines 133-149: the status object, or [None]. *)
Definition check_job_status (p : Provider) (job_id : pyval)
  : M (option dict) :=
  response <- session_get p
                (api_url p ++ "/api/flow/status/" ++ PyStr.str job_id)%string
                (timeout p) ;;
  match response with
  | Response code status_data =>
      if (code =? 200)%Z then ret (Some status_data) else ret None
  | RequestException => ret None
  end.

(** [not status_data]: [None] and the empty object are falsy. *)
Definition status_falsy (status_data : option dict) : bool :=
  match status_data with
  | None => true
  | Some [] => true
  | Some (_ :: _) => false
  end.

(** Lines 156-176: the while loop; [None] when the fuel runs out. *)
Fixpoint wait_loop (fuel : nat) (p : Provider) (job_id : pyval)
         (max_wait_time start_time check_interval : Q) (w : World)
  : option (outcome bool * World) :=
  match fuel with
  | O => None
  | S fuel' =>
      if Qltb (now w - start_time) max_wait_time then
        match check_job_status p job_id w with
        | (Raise e, w1) => Some (Raise e, w1)
        | (Ret status_data, w1) =>
            if status_falsy status_data then Some (Ret false, w1)
            else
              let status :=
                match status_data with
                | Some d => dict_get d "status"
                | None => PNone
                end in
              if eq_str status "Completed" then Some (Ret true, w1)
              else if in_strs status ["Failed"; "Cancelled"] then
                Some (Ret false, w1)
              else
                wait_loop fuel' p job_id max_wait_time start_time
                  (next_interval check_interval)
                  (sleep check_interval w1)
        end
      else Some (Ret false, w)
  end.

(** Lines 151-176. *)
Definition wait_for_completion (fuel : nat) (p : Provider)
           (job_id : pyval) (max_wait_time : Q) (w : World)
  : option (outcome bool * World) :=
  let start_time := now w in
  let check_interval := 10%Q in
  wait_loop fuel p job_id max_wait_time start_time check_interval w.

(** Lines 178-188: the accumulating loop. *)
Fixpoint list_subtitles_loop (p : Provider) (video : Video)
         (languages : list string) (subtitles : list Subtitle)
  : list Subtitle :=
  match languages with
  | [] => subtitles
  | language :: rest =>
      let subtitle := new_subtitle language video in
      let subtitle :=
        {| language := FileFlows.language subtitle;
           video := FileFlows.video subtitle;
           sub_workflow_id := workflow_id p;
           job_id := job_id subtitle;
           content := content subtitle |} in
      list_subtitles_loop p video rest (subtitles ++ [subtitle])
  end.

Definition list_subtitles (p : Provider) (video : Video)
           (languages : list string) : M (list Subtitle) :=
  ret (list_subtitles_loop p video languages []).

(** Lines 190-214.  The subtitle object is mutated in place, so its
    final state is returned on every path next to the outcome. *)
Definition download_subtitle (fuel : nat) (p : Provider)
           (subtitle : Subtitle) (w : World)
  : option (outcome unit * Subtitle * World) :=
  let file_path := original_path (video subtitle) in
  match submit_file_to_workflow p file_path w with
  | (Raise e, w1) => Some (Raise e, subtitle, w1)
  | (Ret jid, w1) =>
      if negb (truthy jid) then Some (Ret tt, subtitle, w1)
      else
        let subtitle :=
          {| language := language subtitle; video := video subtitle;
             sub_workflow_id := sub_workflow_id subtitle;
             job_id := jid; content := content subtitle |} in
        match wait_for_completion fuel p jid (inject_Z (timeout p)) w1 with
        | None => None
        | Some (Raise e, w2) => Some (Raise e, subtitle, w2)
        | Some (Ret success, w2) =>
            if success then
              Some (Ret tt,
                    {| language := language subtitle;
                       video := video subtitle;
                       sub_workflow_id := sub_workflow_id subtitle;
                       job_id := job_id subtitle;
                       content := Some [] |},
                    w2)
            else Some (Ret tt, subtitle, w2)
        end
  end.

End Provider.

End FileFlows.

(* ---------------------------------------------------------------------- *)
(** * Reference functions used to state the properties                     *)
(* ---------------------------------------------------------------------- *)

Module MoviesRef.
Import Movies.

(** The entries that are not [None], in their order. *)
Definition non_null (entries : list (option string)) : list string :=
  flat_map (fun e => match e with Some l => [l] | None => [] end) entries.

(** The requests of a list of decoded entries. *)
Definition resolve (entries : list (option string))
  : list LanguageRequest :=
  map entry_request (non_null entries).

(** The result a yielded value stands for, if it is truthy. *)
Definition result_of (y : Yielded) : option SubResult :=
  match y with
  | YNone => None
  | YTuple [] => None
  | YTuple (r :: _) => Some r
  | YResult r => Some r
  end.

Definition collected (ys : list Yielded) : list SubResult :=
  flat_map (fun y => match result_of y with
                     | Some r => [r]
                     | None => []
                     end) ys.

(** The sink calls made for a sequence of yielded values. *)
Definition sink_events (movie : Movie) (moviePath : string) (no : Z)
           (ys : list Yielded) : list Event :=
  flat_map (fun y => match result_of y with
                     | Some r => [EvStore (path movie) moviePath;
                                  EvHistory 1 no r;
                                  EvNotify no (message r)]
                     | None => []
                     end) ys.

(** The results written to the history sink by a run of events. *)
Definition history_results (evs : list Event) : list SubResult :=
  flat_map (fun e => match e with
                     | EvHistory _ _ r => [r]
                     | _ => []
                     end) evs.

Definition movie_path (env : Collaborators) (movie : Movie) : string :=
  path_replace_movie env (path movie).

Definition audio_name (env : Collaborators) (movie : Movie) : string :=
  match get_audio_profile_languages env (audio_language movie) with
  | a :: _ => name a
  | [] => "None"
  end.

(** What generate_subtitles yields for this movie and these requests. *)
Definition generated (env : Collaborators) (movie : Movie)
           (languages : list LanguageRequest) : list Yielded :=
  generate_subtitles env (movie_path env movie) languages
    (audio_name env movie) (str_sceneName (sceneName movie))
    (title movie) "movie" (profileId movie) true.

(** Everything the driver does once the language loop is over. *)
Definition pass_events (env : Collaborators) (no : Z) (movie : Movie)
           (languages : list LanguageRequest) : list Event :=
  [EvShowProgress (progress_id no) "Searching missing subtitles..."
     (title movie) 0 (List.length (missing_subtitles movie));
   EvGenerate (movie_path env movie) languages (audio_name env movie)
     (str_sceneName (sceneName movie)) (title movie) "movie"
     (profileId movie) true]
  ++ sink_events movie (movie_path env movie) no
       (generated env movie languages)
  ++ [EvHideProgress (progress_id no)].

Definition throttled_msg : string := "BAZARR All providers are throttled".

Definition not_found_msg : string :=
  "BAZARR no movie with that radarrId can be found in database:".

(** The three sink calls made for one result. *)
Definition result_calls (movie : Movie) (moviePath : string) (no : Z)
           (r : SubResult) : list Event :=
  [EvStore (path movie) moviePath; EvHistory 1 no r;
   EvNotify no (message r)].

End MoviesRef.

Module FileFlowsRef.
Import FileFlows.

(** A status reply that leaves the job in Processing or Pending. *)
Definition still_running (r : http_result) : Prop :=
  exists d, r = Response 200 d /\
            (dict_get d "status" = PStr "Processing" \/
             dict_get d "status" = PStr "Pending").

(** No status data: the request failed or the code is not 200. *)
Definition transport_failure (r : http_result) : Prop :=
  r = RequestException \/
  exists code d, r = Response code d /\ code <> 200%Z.

Definition status_url (p : Provider) (job_id : pyval) : string :=
  (api_url p ++ "/api/flow/status/" ++ PyStr.str job_id)%string.

(** The world after one status request. *)
Definition polled (env : Remote) (p : Provider) (job_id : pyval)
           (w : World) : World :=
  {| now := (now w + get_latency env (gets w))%Q;
     gets := S (gets w); slept := slept w;
     net := net w ++ [NetGet (status_url p job_id) (timeout p)];
     log_level := log_level w |}.

(** The interval in use after [n] more updates, starting from [c]. *)
Fixpoint backoff (n : nat) (c : Q) : Q :=
  match n with
  | O => c
  | S n' => backoff n' (next_interval c)
  end.

(** Seconds slept over [n] rounds that start with interval [c]. *)
Fixpoint backoff_sum (n : nat) (c : Q) : Q :=
  match n with
  | O => 0
  | S n' => (c + backoff_sum n' (next_interval c))%Q
  end.

(** [f 0 + f 1 + ... + f (n-1)]. *)
Fixpoint qsum (f : nat -> Q) (n : nat) : Q :=
  match n with
  | O => 0
  | S n' => (f O + qsum (fun j => f (S j)) n')%Q
  end.

(** The placeholder built for one language by list_subtitles. *)
Definition placeholder (p : Provider) (video : Video) (language : string)
  : Subtitle :=
  {| language := language; video := video;
     sub_workflow_id := workflow_id p; job_id := PNone;
     content := None |}.

(** The subtitle object after a successful download. *)
Definition processed (subtitle : Subtitle) (jid : pyval) : Subtitle :=
  {| language := language subtitle; video := video subtitle;
     sub_workflow_id := sub_workflow_id subtitle;
     job_id := jid; content := Some [] |}.

(** The subtitle object once a job id was stored in it. *)
Definition submitted (subtitle : Subtitle) (jid : pyval) : Subtitle :=
  {| language := language subtitle; video := video subtitle;
     sub_workflow_id := sub_workflow_id subtitle;
     job_id := jid; content := content subtitle |}.

(** The world after the logger's level was set. *)
Definition with_level (lvl : Z) (w : World) : World :=
  {| now := now w; gets := gets w; slept := slept w; net := net w;
     log_level := lvl |}.

(** What one status reply means to the wait loop: its result, or
    [None] for another round. *)
Definition verdict (r : http_result) : option bool :=
  match r with
  | RequestException => Some false
  | Response code d =>
      if (code =? 200)%Z then
        match d with
        | [] => Some false
        | _ :: _ =>
            if eq_str (dict_get d "status") "Completed" then Some true
            else if in_strs (dict_get d "status") ["Failed"; "Cancelled"]
                 then Some false
                 else None
        end
      else Some false
  end.

(** A 200 reply with a non-empty object whose status is none of
    Completed, Failed, Cancelled, or is missing. *)
Definition unfinished (r : http_result) : Prop :=
  exists kv d,
    r = Response 200 (kv :: d) /\
    eq_str (dict_get (kv :: d) "status") "Completed" = false /\
    in_strs (dict_get (kv :: d) "status") ["Failed"; "Cancelled"] = false.

(** A 200 reply that reports Completed ([true]) or Failed / Cancelled
    ([false]). *)
Definition finished_with (b : bool) (r : http_result) : Prop :=
  exists d,
    r = Response 200 d /\
    if b then dict_get d "status" = PStr "Completed"
    else dict_get d "status" = PStr "Failed" \/
         dict_get d "status" = PStr "Cancelled".

(** Seconds taken by [n] unfinished rounds that start at request [g]
    with interval [c]: each request's duration plus the sleep after it. *)
Fixpoint rounds_time (env : Remote) (g : nat) (c : Q) (n : nat) : Q :=
  match n with
  | O => 0
  | S n' =>
      (get_latency env g + c + rounds_time env (S g) (next_interval c) n')%Q
  end.

(** [m] status requests for one job. *)
Definition status_requests (p : Provider) (job_id : pyval) (m : nat)
  : list NetEvent :=
  repeat (NetGet (status_url p job_id) (timeout p)) m.

Definition process_url (p : Provider) : string :=
  (api_url p ++ "/api/flow/process")%string.

(** The world after the file was posted to the workflow. *)
Definition posted (env : Remote) (p : Provider) (file_path : string)
           (w : World) : World :=
  {| now := (now w + post_latency env)%Q;
     gets := gets w; slept := slept w;
     net := net w ++
            [NetPost (process_url p) file_path (workflow_id p) (timeout p)];
     log_level := log_level w |}.

(** The world after the liveness probe was sent. *)
Definition pinged (env : Remote) (p : Provider) (w : World) : World :=
  {| now := (now w + get_latency env (gets w))%Q;
     gets := S (gets w); slept := slept w;
     net := net w ++ [NetGet (api_url p ++ "/api/status")%string 10];
     log_level := log_level w |}.

(** [k] copies of the character [c]. *)
Fixpoint repeat_char (c : ascii) (k : nat) : string :=
  match k with
  | O => EmptyString
  | S k' => String c (repeat_char c k')
  end.

(** The configuration of a provider, its session left aside. *)
Definition same_settings (p q : Provider) : Prop :=
  api_url p = api_url q /\ api_key p = api_key q /\
  workflow_id p = workflow_id q /\ timeout p = timeout q.


End FileFlowsRef.

(* ---------------------------------------------------------------------- *)
(** * Sample data                                                          *)
(* ---------------------------------------------------------------------- *)

Module Samples.

Definition en_result : Movies.SubResult :=
  {| Movies.message := "English subtitles downloaded from opensubtitlescom";
     Movies.res_language := "en";
     Movies.res_provider := "opensubtitlescom" |}.

Definition alien : Movies.Movie :=
  {| Movies.path := "/movies/Alien (1979)/Alien.mkv";
     Movies.missing_subtitles :=
       [Some "en"; Some "es:hi"; None; Some "fr:forced"];
     Movies.audio_language := "English";
     Movies.radarrId := 7;
     Movies.sceneName := None;
     Movies.title := "Alien";
     Movies.tags := "[]";
     Movies.monitored := true;
     Movies.profileId := 1 |}.

(** One movie (id 7); the registry is empty exactly at its
    [throttle_at]-th query; only English subtitles can be found. *)
Definition library (throttle_at : nat) (file_present : bool)
  : Movies.Collaborators :=
  {| Movies.db_first := fun no => if (no =? 7)%Z then Some alien else None;
     Movies.path_replace_movie := fun p => p;
     Movies.os_path_exists := fun _ => file_present;
     Movies.get_audio_profile_languages :=
       fun _ => [{| Movies.name := "English" |}];
     Movies.providers_at :=
       fun i => if i =? throttle_at then [] else ["opensubtitlescom"];
     Movies.generate_subtitles :=
       fun _ languages _ _ _ _ _ _ =>
         flat_map (fun l : Movies.LanguageRequest =>
                     if (fst (fst l) =? "en")%string
                     then [Movies.YResult en_result]
                     else [Movies.YNone]) languages |}.

Definition start : Movies.World :=
  {| Movies.queries := 0; Movies.events := [] |}.

Definition ff_provider : FileFlows.Provider :=
  FileFlows.initialize
    {| FileFlows.api_url := "http://fileflows:19200";
       FileFlows.api_key := PStr "secret";
       FileFlows.workflow_id := PStr "extract-subs";
       FileFlows.timeout := 25;
       FileFlows.session := None |}.

Definition alien_video : FileFlows.Video :=
  {| FileFlows.original_name := "Alien.mkv";
     FileFlows.original_path := "/movies/Alien (1979)/Alien.mkv";
     FileFlows.kind := FileFlows.Movie |}.

Definition processing : FileFlows.http_result :=
  FileFlows.Response 200 [("uid", PStr "job-42"); ("status", PStr "Processing")].

Definition completed : FileFlows.http_result :=
  FileFlows.Response 200 [("uid", PStr "job-42"); ("status", PStr "Completed")].

(** A service whose job never leaves Processing; each status request
    takes half a second. *)
Definition busy_service : FileFlows.Remote :=
  {| FileFlows.os_path_exists := fun _ => true;
     FileFlows.post_reply :=
       fun _ => FileFlows.Response 200 [("uid", PStr "job-42")];
     FileFlows.post_latency := 1 # 2;
     FileFlows.get_reply := fun _ => processing;
     FileFlows.get_latency := fun _ => 1 # 2 |}.

(** A service whose job completes at the second status request. *)
Definition quick_service : FileFlows.Remote :=
  {| FileFlows.os_path_exists := fun _ => true;
     FileFlows.post_reply :=
       fun _ => FileFlows.Response 200 [("uid", PStr "job-42")];
     FileFlows.post_latency := 1 # 2;
     FileFlows.get_reply := fun i => if i =? 0 then processing else completed;
     FileFlows.get_latency := fun _ => 1 # 2 |}.

(** A service whose status endpoint answers 503 at the second request. *)
Definition flaky_service : FileFlows.Remote :=
  {| FileFlows.os_path_exists := fun _ => true;
     FileFlows.post_reply :=
       fun _ => FileFlows.Response 200 [("uid", PStr "job-42")];
     FileFlows.post_latency := 1 # 2;
     FileFlows.get_reply :=
       fun i => if i =? 0 then processing else FileFlows.Response 503 [];
     FileFlows.get_latency := fun _ => 1 # 2 |}.

Definition ff_start : FileFlows.World :=
  {| FileFlows.now := 0; FileFlows.gets := 0; FileFlows.slept := 0;
     FileFlows.net := []; FileFlows.log_level := 20 |}.

(** [int()] on str, restricted to plain decimal numerals. *)
Definition decimal (s : string) : option Z :=
  option_map Z.of_int (NilZero.int_of_string s).

(** The world after the sample file was posted to the quick service. *)
Definition after_post : FileFlows.World :=
  snd (FileFlows.submit_file_to_workflow quick_service ff_provider
         (FileFlows.original_path alien_video) ff_start).

(** The world once the quick service reported completion. *)
Definition after_completion : FileFlows.World :=
  FileFlowsRef.polled quick_service ff_provider (PStr "job-42")
    (FileFlows.sleep 10 (FileFlowsRef.polled quick_service ff_provider (PStr "job-42") after_post)).

(** The world of the flaky service after its first, unfinished poll. *)
Definition after_first_poll : FileFlows.World :=
  FileFlows.sleep 10 (FileFlowsRef.polled flaky_service ff_provider (PStr "job-42") ff_start).

(** A movie with nothing missing. *)
Definition heat : Movies.Movie :=
  {| Movies.path := "/movies/Heat (1995)/Heat.mkv";
     Movies.missing_subtitles := [];
     Movies.audio_language := "English";
     Movies.radarrId := 8;
     Movies.sceneName := Some "Heat.1995.1080p";
     Movies.title := "Heat";
     Movies.tags := "[]";
     Movies.monitored := true;
     Movies.profileId := 1 |}.

(** A library holding only that movie; every provider is throttled. *)
Definition archive : Movies.Collaborators :=
  {| Movies.db_first := fun no => if (no =? 8)%Z then Some heat else None;
     Movies.path_replace_movie := fun p => p;
     Movies.os_path_exists := fun _ => true;
     Movies.get_audio_profile_languages := fun _ => [];
     Movies.providers_at := fun _ => [];
     Movies.generate_subtitles := fun _ _ _ _ _ _ _ _ => [] |}.

Definition second_result : Movies.SubResult :=
  {| Movies.message := "English subtitles downloaded from podnapisi";
     Movies.res_language := "en";
     Movies.res_provider := "podnapisi" |}.

(** The session opened by [initialize] on the sample provider. *)
Definition ff_session : FileFlows.Session :=
  {| FileFlows.headers :=
       [("Content-Type", "application/json");
        ("Authorization", "Bearer secret")];
     FileFlows.closed := false |}.

(** The sample provider before [initialize]. *)
Definition cold_provider : FileFlows.Provider :=
  {| FileFlows.api_url := "http://fileflows:19200";
     FileFlows.api_key := PStr "secret";
     FileFlows.workflow_id := PStr "extract-subs";
     FileFlows.timeout := 25;
     FileFlows.session := None |}.

(** A service whose status object never has a status key. *)
Definition vague_service : FileFlows.Remote :=
  {| FileFlows.os_path_exists := fun _ => true;
     FileFlows.post_reply :=
       fun _ => FileFlows.Response 200 [("uid", PStr "job-42")];
     FileFlows.post_latency := 1 # 2;
     FileFlows.get_reply :=
       fun _ => FileFlows.Response 200 [("state", PStr "completed")];
     FileFlows.get_latency := fun _ => 1 # 2 |}.

(** A service that has no such file, refuses submissions and answers
    status requests with an empty object. *)
Definition blank_service : FileFlows.Remote :=
  {| FileFlows.os_path_exists := fun _ => false;
     FileFlows.post_reply := fun _ => FileFlows.Response 500 [];
     FileFlows.post_latency := 1 # 2;
     FileFlows.get_reply := fun _ => FileFlows.Response 200 [];
     FileFlows.get_latency := fun _ => 1 # 2 |}.

(** A service that has the file but refuses submissions. *)
Definition closed_service : FileFlows.Remote :=
  {| FileFlows.os_path_exists := fun _ => true;
     FileFlows.post_reply := fun _ => FileFlows.Response 500 [];
     FileFlows.post_latency := 1 # 2;
     FileFlows.get_reply := fun _ => FileFlows.Response 200 [];
     FileFlows.get_latency := fun _ => 1 # 2 |}.

Definition en_placeholder : FileFlows.Subtitle :=
  FileFlowsRef.placeholder ff_provider alien_video "en".

(** A service whose job never leaves Processing and whose status
    requests take 100 seconds each. *)
Definition slow_service : FileFlows.Remote :=
  {| FileFlows.os_path_exists := fun _ => true;
     FileFlows.post_reply :=
       fun _ => FileFlows.Response 200 [("uid", PStr "job-42")];
     FileFlows.post_latency := 1 # 2;
     FileFlows.get_reply := fun _ => processing;
     FileFlows.get_latency := fun _ => 100%Q |}.

(** The stored row of the sample movie. *)
Definition alien_row : MoviesRaw.Row :=
  {| MoviesRaw.path := "/movies/Alien (1979)/Alien.mkv";
     MoviesRaw.missing_subtitles := Some "['en', 'es:hi', None, 'fr:forced']";
     MoviesRaw.audio_language := "English";
     MoviesRaw.radarrId := 7;
     MoviesRaw.sceneName := None;
     MoviesRaw.title := "Alien";
     MoviesRaw.tags := "[]";
     MoviesRaw.monitored := true;
     MoviesRaw.profileId := 1 |}.

(** A row whose column holds text that is no literal. *)
Definition broken_row : MoviesRaw.Row :=
  {| MoviesRaw.path := "/movies/Brazil (1985)/Brazil.mkv";
     MoviesRaw.missing_subtitles := Some "['en', ";
     MoviesRaw.audio_language := "English";
     MoviesRaw.radarrId := 9;
     MoviesRaw.sceneName := None;
     MoviesRaw.title := "Brazil";
     MoviesRaw.tags := "[]";
     MoviesRaw.monitored := true;
     MoviesRaw.profileId := 1 |}.

(** A row whose list holds a number. *)
Definition odd_row : MoviesRaw.Row :=
  {| MoviesRaw.path := "/movies/Solaris (1972)/Solaris.mkv";
     MoviesRaw.missing_subtitles := Some "['en', 3]";
     MoviesRaw.audio_language := "Russian";
     MoviesRaw.radarrId := 10;
     MoviesRaw.sceneName := None;
     MoviesRaw.title := "Solaris";
     MoviesRaw.tags := "[]";
     MoviesRaw.monitored := true;
     MoviesRaw.profileId := 1 |}.

(** The three rows, with what ast.literal_eval makes of their text. *)
Definition shelf : MoviesRaw.Store :=
  {| MoviesRaw.select_first :=
       fun no =>
         if (no =? 7)%Z then Some alien_row
         else if (no =? 9)%Z then Some broken_row
         else if (no =? 10)%Z then Some odd_row
         else None;
     MoviesRaw.literal_eval :=
       fun text =>
         match text with
         | None => Raise ValueError
         | Some t =>
             if (t =? "['en', 'es:hi', None, 'fr:forced']")%string then
               Ret (MoviesRaw.LList
                      [MoviesRaw.LStr "en"; MoviesRaw.LStr "es:hi";
                       MoviesRaw.LNone; MoviesRaw.LStr "fr:forced"])
             else if (t =? "['en', 3]")%string then
               Ret (MoviesRaw.LList [MoviesRaw.LStr "en"; MoviesRaw.LInt 3])
             else Raise SyntaxError
         end |}.

End Samples.

(* ---------------------------------------------------------------------- *)
(** * String methods                                                       *)
(* ---------------------------------------------------------------------- *)

Section StringFacts.
Import PyStr.

Lemma split_nonempty c s : split c s <> [].
Proof.
  destruct s as [|a s]; cbn; [discriminate|].
  destruct (Ascii.eqb a c); [discriminate|].
  destruct (split c s); discriminate.
Qed.

Lemma split_head_lacks c s :
  lacks c s = true -> hd EmptyString (split c s) = s.
Proof.
  induction s as [|a s IH]; cbn; [reflexivity|].
  intro H. apply andb_true_iff in H as [Ha Hs].
  apply negb_true_iff in Ha. rewrite Ha.
  specialize (IH Hs).
  destruct (split c s) as [|w ws]; cbn in *; subst; reflexivity.
Qed.

Lemma split_head_before c s r :
  lacks c s = true ->
  hd EmptyString (split c (s ++ String c r)%string) = s.
Proof.
  induction s as [|a s IH]; cbn.
  - intros _. rewrite Ascii.eqb_refl. reflexivity.
  - intro H. apply andb_true_iff in H as [Ha Hs].
    apply negb_true_iff in Ha. rewrite Ha.
    specialize (IH Hs).
    destruct (split c (s ++ String c r)%string) as [|w ws];
      cbn in *; subst; reflexivity.
Qed.

Lemma endswith_lacks c s r :
  lacks c s = true -> endswith s (String c r) = false.
Proof.
  induction s as [|a s IH]; cbn; [reflexivity|].
  intro H. apply andb_true_iff in H as [Ha Hs].
  apply negb_true_iff in Ha. rewrite Ha. cbn. auto.
Qed.

Lemma endswith_after_lacks c s r r' :
  lacks c s = true ->
  endswith (s ++ String c r)%string (String c r') =
  endswith (String c r) (String c r').
Proof.
  induction s as [|a s IH]; [reflexivity|].
  intro H. cbn in H. apply andb_true_iff in H as [Ha Hs].
  apply negb_true_iff in Ha.
  cbn [String.append endswith]. rewrite (IH Hs).
  cbn. rewrite Ha. reflexivity.
Qed.

Lemma endswith_append p s : endswith (p ++ s)%string s = true.
Proof.
  induction p as [|a p IH]; cbn.
  - destruct s; cbn; [reflexivity|].
    rewrite Ascii.eqb_refl, String.eqb_refl. reflexivity.
  - rewrite IH. apply orb_true_r.
Qed.

(** [endswith] is the suffix test. *)
Lemma endswith_iff s suffix :
  endswith s suffix = true <-> exists p, s = (p ++ suffix)%string.
Proof.
  split.
  - induction s as [|a s IH]; cbn.
    + rewrite orb_false_r. intro H.
      destruct suffix; [|discriminate]. exists "". reflexivity.
    + intro H. apply orb_true_iff in H as [H|H].
      * exists "". cbn.
        change (String.eqb (String a s) suffix = true) in H.
        now apply String.eqb_eq in H.
      * destruct (IH H) as [p ->]. exists (String a p). reflexivity.
  - intros [p ->]. apply endswith_append.
Qed.

End StringFacts.

(* ---------------------------------------------------------------------- *)
(** * The movie driver                                                     *)
(* ---------------------------------------------------------------------- *)

Lemma movies_state_eq {A} (a a' : A) q q' e e' :
  a = a' -> q = q' -> e = e' ->
  (Ret a, {| Movies.queries := q; Movies.events := e |}) =
  (Ret a', {| Movies.queries := q'; Movies.events := e' |}).
Proof. intros; subst; reflexivity. Qed.

Ltac world_eq :=
  apply movies_state_eq; [ try reflexivity | cbn; lia | try reflexivity ].

Section MoviesFacts.
Import Movies MoviesRef.
Variable env : Collaborators.

Lemma handle_result_trace movie moviePath no y w :
  handle_result movie moviePath no y w =
  (Ret tt, {| queries := queries w;
              events := events w ++ sink_events movie moviePath no [y] |}).
Proof.
  unfold handle_result, bind, emit, ret, sink_events.
  destruct y as [|[|r items]|r]; cbn;
    try (rewrite app_nil_r; destruct w; reflexivity);
    rewrite <- !app_assoc; reflexivity.
Qed.

Lemma handle_results_trace movie moviePath no ys w :
  handle_results movie moviePath no ys w =
  (Ret tt, {| queries := queries w;
              events := events w ++ sink_events movie moviePath no ys |}).
Proof.
  revert w; induction ys as [|y ys IH]; intro w.
  - cbn. unfold ret. rewrite app_nil_r. destruct w; reflexivity.
  - cbn [handle_results]. unfold bind at 1.
    rewrite handle_result_trace, IH. cbn [queries events].
    change (y :: ys) with ([y] ++ ys). unfold sink_events.
    rewrite flat_map_app, <- app_assoc. reflexivity.
Qed.

Lemma resolve_app a b : resolve (a ++ b) = resolve a ++ resolve b.
Proof.
  unfold resolve, non_null. rewrite flat_map_app, map_app. reflexivity.
Qed.

(** The loop while the registry keeps answering with providers. *)
Lemma languages_loop_all entries :
  forall acc w,
    (forall i, i < List.length entries ->
               providers_at env (queries w + i) <> []) ->
    languages_loop env entries acc w =
    (Ret (acc ++ resolve entries),
     {| queries := queries w + List.length entries;
        events := events w ++
                  repeat EvGetProviders (List.length entries) |}).
Proof.
  induction entries as [|e rest IH]; intros acc w Hav.
  - cbn. unfold ret. rewrite !app_nil_r, Nat.add_0_r.
    destruct w; reflexivity.
  - cbn [languages_loop]. unfold bind at 1, get_providers.
    pose proof (Hav 0 ltac:(cbn; lia)) as H0. rewrite Nat.add_0_r in H0.
    destruct (providers_at env (queries w)) as [|pr prs]; [congruence|].
    assert (Hrest : forall i, i < List.length rest ->
              providers_at env (S (queries w) + i) <> []).
    { intros i Hi. specialize (Hav (S i) ltac:(cbn; lia)).
      now rewrite Nat.add_succ_r in Hav. }
    destruct e as [l|]; rewrite IH by exact Hrest;
      cbn [queries events List.length repeat].
    + change (resolve (Some l :: rest))
        with (entry_request l :: resolve rest).
      rewrite <- !app_assoc. cbn [app]. world_eq.
    + change (resolve (None :: rest)) with (resolve rest).
      rewrite <- !app_assoc. cbn [app]. world_eq.
Qed.

(** The loop when the registry is first empty at the k-th entry. *)
Lemma languages_loop_break entries :
  forall k acc w,
    k < List.length entries ->
    (forall i, i < k -> providers_at env (queries w + i) <> []) ->
    providers_at env (queries w + k) = [] ->
    languages_loop env entries acc w =
    (Ret (acc ++ resolve (firstn k entries)),
     {| queries := queries w + S k;
        events := events w ++ repeat EvGetProviders (S k) ++
                  [EvInfo throttled_msg] |}).
Proof.
  induction entries as [|e rest IH]; intros k acc w Hk Hav Hek.
  - cbn in Hk. lia.
  - cbn [languages_loop]. unfold bind at 1, get_providers.
    destruct k as [|k].
    + rewrite Nat.add_0_r in Hek. rewrite Hek.
      unfold bind, emit, ret. cbn. rewrite app_nil_r, <- app_assoc. cbn.
      world_eq.
    + pose proof (Hav 0 ltac:(lia)) as H0. rewrite Nat.add_0_r in H0.
      destruct (providers_at env (queries w)) as [|pr prs]; [congruence|].
      assert (Hrest : forall i, i < k ->
                providers_at env (S (queries w) + i) <> []).
      { intros i Hi. specialize (Hav (S i) ltac:(lia)).
        now rewrite Nat.add_succ_r in Hav. }
      assert (Hek' : providers_at env (S (queries w) + k) = []).
      { now rewrite Nat.add_succ_r in Hek. }
      cbn in Hk.
      destruct e as [l|];
        rewrite (IH k) by (cbn [queries]; first [lia | assumption]);
        cbn [queries events firstn].
      * change (resolve (Some l :: firstn k rest))
          with (entry_request l :: resolve (firstn k rest)).
        rewrite <- !app_assoc. cbn [app repeat]. world_eq.
      * change (resolve (None :: firstn k rest))
          with (resolve (firstn k rest)).
        rewrite <- !app_assoc. cbn [app repeat]. world_eq.
Qed.

(** The loop never raises, and writes nothing to the history sink. *)
Lemma languages_loop_returns entries :
  forall acc w, exists languages w1,
    languages_loop env entries acc w = (Ret languages, w1) /\
    history_results (events w1) = history_results (events w).
Proof.
  induction entries as [|e rest IH]; intros acc w.
  - exists acc, w. split; reflexivity.
  - cbn [languages_loop]. unfold bind at 1, get_providers.
    destruct (providers_at env (queries w)) as [|pr prs].
    + eexists _, _. split; [reflexivity|].
      cbn. unfold history_results.
      rewrite <- app_assoc, flat_map_app. cbn. now rewrite app_nil_r.
    + set (w1 := {| queries := S (queries w);
                    events := events w ++ [EvGetProviders] |}).
      assert (Hh : history_results (events w1) = history_results (events w)).
      { cbn. unfold history_results. rewrite flat_map_app. cbn.
        now rewrite app_nil_r. }
      destruct e as [l|].
      * destruct (IH (acc ++ [entry_request l]) w1) as [ls [w2 [E H]]].
        exists ls, w2. split; [exact E | congruence].
      * destruct (IH acc w1) as [ls [w2 [E H]]].
        exists ls, w2. split; [exact E | congruence].
Qed.

(** The driver for an item that is found and whose file is on disk. *)
Lemma driver_after_loop no movie w languages w1 :
  db_first env no = Some movie ->
  os_path_exists env (movie_path env movie) = true ->
  languages_loop env (missing_subtitles movie) [] w = (Ret languages, w1) ->
  movies_download_subtitles env no w =
  (Ret ONone,
   {| queries := queries w1;
      events := events w1 ++ pass_events env no movie languages |}).
Proof.
  intros Hdb Hpath Hloop. unfold movies_download_subtitles.
  rewrite Hdb. fold (movie_path env movie). rewrite Hpath. cbn [negb].
  unfold bind at 1. rewrite Hloop.
  unfold bind, emit, ret. cbn [queries events].
  rewrite handle_results_trace. cbn [queries events].
  unfold pass_events, generated, audio_name, movie_path.
  assert (Hc : match missing_subtitles movie with
               | [] => 0
               | _ :: _ => List.length (missing_subtitles movie)
               end = List.length (missing_subtitles movie))
    by (destruct (missing_subtitles movie); reflexivity).
  rewrite Hc, <- !app_assoc. reflexivity.
Qed.

Lemma history_of_sinks movie moviePath no ys :
  history_results (sink_events movie moviePath no ys) = collected ys.
Proof.
  unfold history_results, sink_events, collected.
  induction ys as [|y ys IH]; [reflexivity|].
  cbn [flat_map]. rewrite flat_map_app, IH.
  destruct (result_of y); reflexivity.
Qed.

Lemma history_of_pass no movie languages :
  history_results (pass_events env no movie languages) =
  collected (generated env movie languages).
Proof.
  unfold pass_events, history_results.
  rewrite !flat_map_app. cbn [flat_map app].
  fold (history_results
          (sink_events movie (movie_path env movie) no
             (generated env movie languages))).
  rewrite history_of_sinks, app_nil_r. reflexivity.
Qed.

End MoviesFacts.

Section MoviesClaims.
Import Movies MoviesRef Samples.

(** C1.  When the registry's active set is first empty while the k-th of
    the n decoded entries is considered, the registry has been queried
    k+1 times and is not queried again, the loop ends, and exactly the
    requests built from entries [0, k) are handed to generate_subtitles;
    the sink calls are those of the results it yields for them. *)
Theorem throttle_stops_language_loop
        (env : Collaborators) (no : Z) (movie : Movie) (k : nat) (w : World) :
  db_first env no = Some movie ->
  os_path_exists env (movie_path env movie) = true ->
  k < List.length (missing_subtitles movie) ->
  (forall i, i < k -> providers_at env (queries w + i) <> []) ->
  providers_at env (queries w + k) = [] ->
  movies_download_subtitles env no w =
  (Ret ONone,
   {| queries := queries w + S k;
      events :=
        events w ++ repeat EvGetProviders (S k) ++ [EvInfo throttled_msg] ++
        pass_events env no movie
          (resolve (firstn k (missing_subtitles movie))) |}).
Proof.
  intros Hdb Hpath Hk Hav Hek.
  rewrite (driver_after_loop env no movie w _ _ Hdb Hpath
             (languages_loop_break env _ k [] w Hk Hav Hek)).
  cbn [queries events app]. rewrite <- !app_assoc. reflexivity.
Qed.

Lemma throttle_stops_language_loop_witness :
  movies_download_subtitles (library 1 true) 7 start =
  (Ret ONone,
   {| queries := queries start + 2;
      events :=
        events start ++ repeat EvGetProviders 2 ++ [EvInfo throttled_msg] ++
        pass_events (library 1 true) 7 alien
          (resolve (firstn 1 (missing_subtitles alien))) |}).
Proof.
  apply (throttle_stops_language_loop (library 1 true) 7 alien 1 start).
  - reflexivity.
  - reflexivity.
  - cbn. lia.
  - intros i Hi. destruct i; [cbn; discriminate | lia].
  - reflexivity.
Defined.

(** The same run, spelled out: two registry queries, one request, one
    result delivered; the progress total still counts all four entries. *)
Example throttled_run_trace :
  movies_download_subtitles (library 1 true) 7 start =
  (Ret ONone,
   {| queries := 2;
      events :=
        [EvGetProviders; EvGetProviders; EvInfo throttled_msg;
         EvShowProgress "movie_search_progress_7"
           "Searching missing subtitles..." "Alien" 0 4;
         EvGenerate "/movies/Alien (1979)/Alien.mkv"
           [("en", "False", "False")] "English" "None" "Alien" "movie" 1 true;
         EvStore "/movies/Alien (1979)/Alien.mkv"
           "/movies/Alien (1979)/Alien.mkv";
         EvHistory 1 7 en_result;
         EvNotify 7 (message en_result);
         EvHideProgress "movie_search_progress_7"] |}).
Proof. vm_compute. reflexivity. Qed.

(** C2.  An entry "xx:hi" becomes ("xx", "True", "False"), "xx:forced"
    becomes ("xx", "False", "True"), a bare "xx" becomes
    ("xx", "False", "False"), for a language code xx (no colon inside);
    with providers available throughout, the requests built by the loop
    are those of the non-None entries, in the order of the entries. *)
Theorem resolver_decodes_entries
        (env : Collaborators) (xx : string)
        (entries : list (option string)) (w : World) :
  PyStr.lacks ":" xx = true ->
  (forall i, i < List.length entries ->
             providers_at env (queries w + i) <> []) ->
  entry_request (xx ++ ":hi") = (xx, "True", "False") /\
  entry_request (xx ++ ":forced") = (xx, "False", "True") /\
  entry_request xx = (xx, "False", "False") /\
  fst (languages_loop env entries [] w) =
    Ret (map entry_request (non_null entries)) /\
  non_null (None :: entries) = non_null entries.
Proof.
  intros Hxx Hav. unfold entry_request.
  repeat split.
  - rewrite (split_head_before ":" xx "hi" Hxx).
    rewrite !(endswith_after_lacks ":" xx _ _ Hxx). reflexivity.
  - rewrite (split_head_before ":" xx "forced" Hxx).
    rewrite !(endswith_after_lacks ":" xx _ _ Hxx). reflexivity.
  - rewrite (split_head_lacks ":" xx Hxx).
    rewrite !(endswith_lacks ":" xx _ Hxx). reflexivity.
  - rewrite (languages_loop_all env entries [] w Hav). reflexivity.
Qed.

Lemma resolver_decodes_entries_witness :
  entry_request ("es" ++ ":hi") = ("es", "True", "False") /\
  entry_request ("es" ++ ":forced") = ("es", "False", "True") /\
  entry_request "es" = ("es", "False", "False") /\
  fst (languages_loop (library 99 true) (missing_subtitles alien) [] start) =
    Ret (map entry_request (non_null (missing_subtitles alien))) /\
  non_null (None :: missing_subtitles alien) =
    non_null (missing_subtitles alien).
Proof.
  apply (resolver_decodes_entries (library 99 true) "es"
           (missing_subtitles alien) start).
  - reflexivity.
  - intros i Hi. cbn in Hi. cbn.
    destruct (Nat.eqb_spec i 99); [lia | discriminate].
Defined.

(** The requests decoded from the sample item, None skipped. *)
Example resolved_sample :
  languages_loop (library 99 true) (missing_subtitles alien) [] start =
  (Ret [("en", "False", "False"); ("es", "True", "False");
        ("fr", "False", "True")],
   {| queries := 4; events := repeat EvGetProviders 4 |}).
Proof. vm_compute. reflexivity. Qed.

(** A colon inside the prefix is cut at its first occurrence. *)
Example resolved_inner_colon :
  entry_request "pt:BR:hi" = ("pt", "True", "False").
Proof. vm_compute. reflexivity. Qed.

(** C3 as stated fails: a pass that materializes the English subtitle
    hands the result to the history sink and returns None, not the list
    of results. *)
Lemma acquire_hands_back_nothing :
  let out := movies_download_subtitles (library 99 true) 7 start in
  history_results (events (snd out)) = [en_result] /\
  fst out = Ret ONone /\
  fst out <> Ret (OResults [en_result]).
Proof.
  vm_compute. repeat split; try reflexivity. discriminate.
Qed.

(** C3, amended.  Whenever the entry point returns, it returns None;
    the results collected during the pass are not handed back but
    written, in order, to the history sink: none for an absent item,
    and otherwise those yielded for the requests built by the loop. *)
Theorem acquire_returns_none
        (env : Collaborators) (no : Z) (w : World) (r : pyobj) (w' : World) :
  movies_download_subtitles env no w = (Ret r, w') ->
  r = ONone /\
  ((db_first env no = None /\
    history_results (events w') = history_results (events w)) \/
   (exists movie languages,
       db_first env no = Some movie /\
       fst (languages_loop env (missing_subtitles movie) [] w) =
         Ret languages /\
       history_results (events w') =
         history_results (events w) ++
         collected (generated env movie languages))).
Proof.
  intro Hrun.
  destruct (db_first env no) as [movie|] eqn:Hdb.
  - destruct (os_path_exists env (movie_path env movie)) eqn:Hpath.
    + destruct (languages_loop_returns env (missing_subtitles movie) [] w)
        as [languages [w1 [Hloop Hh]]].
      rewrite (driver_after_loop env no movie w languages w1 Hdb Hpath Hloop)
        in Hrun.
      injection Hrun as <- <-. split; [reflexivity|].
      right. exists movie, languages.
      split; [reflexivity|]. split; [now rewrite Hloop|].
      cbn [events]. unfold history_results at 1.
      rewrite flat_map_app.
      fold (history_results (events w1)).
      fold (history_results (pass_events env no movie languages)).
      now rewrite Hh, history_of_pass.
    + unfold movies_download_subtitles in Hrun. rewrite Hdb in Hrun.
      fold (movie_path env movie) in Hrun. rewrite Hpath in Hrun.
      discriminate.
  - unfold movies_download_subtitles in Hrun. rewrite Hdb in Hrun.
    unfold bind, emit, ret in Hrun. injection Hrun as <- <-.
    split; [reflexivity|]. left. split; [reflexivity|].
    cbn [events]. unfold history_results. rewrite flat_map_app. cbn.
    now rewrite app_nil_r.
Qed.

Lemma acquire_returns_none_witness :
  let out := movies_download_subtitles (library 99 true) 7 start in
  ONone = ONone /\
  ((db_first (library 99 true) 7 = None /\
    history_results (events (snd out)) = history_results (events start)) \/
   (exists movie languages,
       db_first (library 99 true) 7 = Some movie /\
       fst (languages_loop (library 99 true) (missing_subtitles movie) []
              start) = Ret languages /\
       history_results (events (snd out)) =
         history_results (events start) ++
         collected (generated (library 99 true) movie languages))).
Proof.
  exact (acquire_returns_none (library 99 true) 7 start ONone
           (snd (movies_download_subtitles (library 99 true) 7 start))
           eq_refl).
Defined.

(** C4 as stated fails: for an item whose media file is not on disk the
    call raises OSError to its caller, before the registry is queried
    and before any progress event. *)
Lemma missing_media_path_raises :
  movies_download_subtitles (library 99 false) 7 start =
  (Raise OSError, start).
Proof. reflexivity. Qed.

(** The driver over an already decoded list: an absent item is logged
    and the call returns; a missing media file makes the call raise
    OSError with nothing else done; otherwise the call returns. *)
Theorem acquire_raises_only_for_missing_path
        (env : Collaborators) (no : Z) (w : World) :
  match db_first env no with
  | None =>
      movies_download_subtitles env no w =
      (Ret ONone,
       {| queries := queries w;
          events := events w ++
                    [EvDebug not_found_msg (PyStr.str_of_Z no)] |})
  | Some movie =>
      if os_path_exists env (movie_path env movie) then
        exists w', movies_download_subtitles env no w = (Ret ONone, w')
      else
        movies_download_subtitles env no w = (Raise OSError, w)
  end.
Proof.
  destruct (db_first env no) as [movie|] eqn:Hdb.
  - destruct (os_path_exists env (movie_path env movie)) eqn:Hpath.
    + destruct (languages_loop_returns env (missing_subtitles movie) [] w)
        as [languages [w1 [Hloop _]]].
      eexists.
      exact (driver_after_loop env no movie w languages w1 Hdb Hpath Hloop).
    + unfold movies_download_subtitles. rewrite Hdb.
      fold (movie_path env movie). rewrite Hpath. reflexivity.
  - unfold movies_download_subtitles. rewrite Hdb. reflexivity.
Qed.

(** An absent item: one debug line, nothing else. *)
Example absent_item_returns :
  movies_download_subtitles (library 99 true) 8 start =
  (Ret ONone, {| queries := 0; events := [EvDebug not_found_msg "8"] |}).
Proof. vm_compute. reflexivity. Qed.

End MoviesClaims.

(* ---------------------------------------------------------------------- *)
(** * The poll interval                                                    *)
(* ---------------------------------------------------------------------- *)

Section IntervalFacts.
Import FileFlows FileFlowsRef.
Open Scope Q_scope.

Lemma Qltb_true a b : Qltb a b = true <-> a < b.
Proof.
  unfold Qltb. rewrite negb_true_iff.
  split; intro H.
  - apply Qnot_le_lt. intro Hle. apply Qle_bool_iff in Hle. congruence.
  - destruct (Qle_bool b a) eqn:E; [|reflexivity].
    apply Qle_bool_iff in E. exfalso. apply (Qlt_not_le _ _ H E).
Qed.

Lemma Qltb_false a b : Qltb a b = false <-> b <= a.
Proof.
  unfold Qltb. rewrite negb_false_iff. apply Qle_bool_iff.
Qed.

Lemma next_interval_cases c :
  (c * (3 # 2) <= 60 /\ next_interval c == c * (3 # 2)) \/
  (60 <= c * (3 # 2) /\ next_interval c == 60).
Proof.
  unfold next_interval.
  destruct (Q.min_spec (c * (3 # 2)) 60) as [[H E]|[H E]].
  - left. split; [apply Qlt_le_weak; exact H | exact E].
  - right. split; [exact H | exact E].
Qed.

Lemma next_interval_le_60 c : next_interval c <= 60.
Proof. destruct (next_interval_cases c) as [[H E]|[H E]]; lra. Qed.

Lemma next_interval_ge_10 c : 10 <= c -> 10 <= next_interval c.
Proof.
  intro. destruct (next_interval_cases c) as [[H1 E]|[H1 E]]; lra.
Qed.




Lemma seq_le_60 n : check_interval_seq n <= 60.
Proof.
  destruct n; cbn [check_interval_seq]; [lra|]. apply next_interval_le_60.
Qed.


Lemma backoff_next n c :
  backoff n (next_interval c) = next_interval (backoff n c).
Proof.
  revert c; induction n; intro c; cbn; [reflexivity|]. now rewrite IHn.
Qed.

(** Started at 10, the loop's interval runs through the sequence. *)
Lemma backoff_seq n : backoff n 10 = check_interval_seq n.
Proof.
  induction n; [reflexivity|].
  cbn [backoff check_interval_seq]. now rewrite backoff_next, IHn.
Qed.

Lemma qsum_ext n :
  forall f g, (forall j, f j = g j) -> qsum f n = qsum g n.
Proof.
  induction n as [|n IH]; intros f g H; [reflexivity|].
  cbn [qsum]. rewrite (H O). f_equal. apply IH. intro j. apply H.
Qed.

Lemma backoff_sum_qsum n :
  forall c, backoff_sum n c = qsum (fun j => backoff j c) n.
Proof.
  induction n as [|n IH]; intro c; [reflexivity|].
  cbn [backoff_sum qsum backoff]. now rewrite IH.
Qed.

Lemma backoff_sum_seq n : backoff_sum n 10 = qsum check_interval_seq n.
Proof.
  rewrite backoff_sum_qsum. apply qsum_ext. intro j. apply backoff_seq.
Qed.

End IntervalFacts.

(* ---------------------------------------------------------------------- *)
(** * The wait loop                                                        *)
(* ---------------------------------------------------------------------- *)

Section WaitFacts.
Import FileFlows FileFlowsRef.
Open Scope Q_scope.

Variable env : Remote.
Variable p : Provider.
Variable job : pyval.
Variable T : Q.

Lemma check_job_status_polled s w :
  session p = Some s ->
  check_job_status env p job w =
  (Ret match get_reply env (gets w) with
       | Response code d => if (code =? 200)%Z then Some d else None
       | RequestException => None
       end,
   polled env p job w).
Proof.
  intro Hs. unfold check_job_status, bind, session_get. rewrite Hs.
  fold (status_url p job). fold (polled env p job w).
  destruct (get_reply env (gets w)) as [|code d]; [reflexivity|].
  destruct (code =? 200)%Z; reflexivity.
Qed.

Lemma wait_loop_exit fuel start ci w :
  T <= now w - start ->
  wait_loop env (S fuel) p job T start ci w = Some (Ret false, w).
Proof.
  intro H. cbn [wait_loop].
  apply Qltb_false in H. rewrite H. reflexivity.
Qed.

Lemma wait_loop_step fuel s start ci w :
  session p = Some s ->
  now w - start < T ->
  still_running (get_reply env (gets w)) ->
  wait_loop env (S fuel) p job T start ci w =
  wait_loop env fuel p job T start (next_interval ci)
    (sleep ci (polled env p job w)).
Proof.
  intros Hs Hlt [d [Hr Hst]]. cbn [wait_loop].
  apply Qltb_true in Hlt. rewrite Hlt.
  rewrite (check_job_status_polled s w Hs), Hr. cbn [Z.eqb Pos.eqb].
  destruct d as [|kv d'].
  - cbn in Hst. destruct Hst; discriminate.
  - cbn [status_falsy].
    destruct Hst as [-> | ->]; reflexivity.
Qed.

Lemma wait_loop_transport_failure fuel s start ci w :
  session p = Some s ->
  now w - start < T ->
  transport_failure (get_reply env (gets w)) ->
  wait_loop env (S fuel) p job T start ci w =
  Some (Ret false, polled env p job w).
Proof.
  intros Hs Hlt Hf. cbn [wait_loop].
  apply Qltb_true in Hlt. rewrite Hlt.
  rewrite (check_job_status_polled s w Hs).
  destruct Hf as [-> | [code [d [-> Hc]]]]; [reflexivity|].
  apply Z.eqb_neq in Hc. rewrite Hc. reflexivity.
Qed.

Hypothesis latency_nonneg : forall i, 0 <= get_latency env i.

(** The loop against a job that never finishes: with fuel for one
    round per ten seconds left, it runs [m] rounds and gives up. *)
Lemma wait_loop_times_out s s0 start :
  session p = Some s ->
  forall fuel ci w,
    10 <= ci ->
    T - (now w - start) <= 10 * inject_Z (Z.of_nat fuel) ->
    slept w - s0 <= now w - start ->
    (forall i, (gets w <= i)%nat -> still_running (get_reply env i)) ->
    exists m w',
      wait_loop env (S fuel) p job T start ci w = Some (Ret false, w') /\
      gets w' = (gets w + m)%nat /\
      T <= now w' - start /\
      slept w' == slept w + backoff_sum m ci /\
      (m = 0%nat -> w' = w) /\
      ((0 < m)%nat ->
       slept w' - s0 < T + backoff (pred m) ci /\
       now w' - start <
         T + backoff (pred m) ci + get_latency env (gets w + pred m)).
Proof.
  intro Hs. induction fuel as [|fuel IH]; intros ci w Hci Hfuel Hsl Hrun.
  - assert (Hge : T <= now w - start)
      by (change (inject_Z (Z.of_nat 0)) with 0 in Hfuel; lra).
    exists 0%nat, w. rewrite wait_loop_exit by exact Hge.
    split; [reflexivity|]. split; [lia|]. split; [exact Hge|].
    split; [cbn; lra|]. split; [reflexivity|lia].
  - destruct (Qlt_le_dec (now w - start) T) as [Hlt|Hge].
    + rewrite (wait_loop_step (S fuel) s start ci w Hs Hlt
                 (Hrun _ (Nat.le_refl _))).
      pose proof (latency_nonneg (gets w)) as Hlat.
      set (w1 := sleep ci (polled env p job w)).
      assert (Hnow1 : now w1 == now w + get_latency env (gets w) + ci)
        by (cbn; lra).
      assert (Hsl1 : slept w1 == slept w + ci) by (cbn; lra).
      assert (Hg1 : gets w1 = S (gets w)) by reflexivity.
      destruct (IH (next_interval ci) w1)
        as [m [w' [Hr [Hg [Hex [Hsum [Hz Hp]]]]]]].
      * now apply next_interval_ge_10.
      * rewrite Nat2Z.inj_succ, <- Z.add_1_r, inject_Z_plus in Hfuel.
        change (inject_Z 1) with 1 in Hfuel. lra.
      * lra.
      * intros i Hi. apply Hrun. rewrite Hg1 in Hi. lia.
      * exists (S m), w'. rewrite Hr.
        split; [reflexivity|].
        split; [rewrite Hg, Hg1; lia|].
        split; [exact Hex|].
        split; [cbn [backoff_sum]; lra|].
        split; [discriminate|].
        intros _. cbn [pred].
        destruct m as [|m'].
        -- rewrite (Hz eq_refl). cbn [backoff].
           rewrite Nat.add_0_r. lra.
        -- destruct (Hp ltac:(lia)) as [Hp1 Hp2]. cbn [pred] in Hp1, Hp2.
           cbn [backoff]. rewrite Hg1 in Hp2.
           replace (gets w + S m')%nat with (S (gets w) + m')%nat by lia.
           split; lra.
    + exists 0%nat, w. rewrite wait_loop_exit by exact Hge.
      split; [reflexivity|]. split; [lia|]. split; [exact Hge|].
      split; [cbn; lra|]. split; [reflexivity|lia].
Qed.

End WaitFacts.

(* ---------------------------------------------------------------------- *)
(** * The FileFlows provider                                               *)
(* ---------------------------------------------------------------------- *)

Section ProviderFacts.
Import FileFlows FileFlowsRef.

Lemma list_subtitles_loop_map p video languages :
  forall subtitles,
    list_subtitles_loop p video languages subtitles =
    subtitles ++ map (placeholder p video) languages.
Proof.
  induction languages as [|l rest IH]; intro subtitles; cbn.
  - now rewrite app_nil_r.
  - rewrite IH, <- app_assoc. reflexivity.
Qed.

(** With a known log level, a missing setting is a ConfigurationError,
    raised with no request sent. *)
Lemma init_missing_setting int_of_str api_url api_key workflow_id timeout
      level lvl w :
  logging_level (PyStr.upper level) = Some lvl ->
  truthy api_url && truthy api_key && truthy workflow_id && truthy timeout
    = false ->
  exists msg,
    __init__ int_of_str api_url api_key workflow_id timeout (PStr level) w =
    (Raise (ConfigurationError msg), with_level lvl w).
Proof.
  intros Hl Hm. unfold __init__, bind at 1, set_log_level. rewrite Hl.
  fold (with_level lvl w).
  destruct (truthy api_url); [|eexists; reflexivity].
  destruct (truthy api_key); [|eexists; reflexivity].
  destruct (truthy workflow_id); [|eexists; reflexivity].
  destruct (truthy timeout); [discriminate|eexists; reflexivity].
Qed.

(** With a known log level and all four settings given, construction
    succeeds, with no request sent and no session opened. *)
Lemma init_complete int_of_str url api_key workflow_id t level lvl w :
  logging_level (PyStr.upper level) = Some lvl ->
  url <> EmptyString -> truthy api_key = true ->
  truthy workflow_id = true -> t <> 0%Z ->
  __init__ int_of_str (PStr url) api_key workflow_id (PInt t) (PStr level) w =
  (Ret {| api_url := PyStr.rstrip "/" url; api_key := api_key;
          workflow_id := workflow_id; timeout := t; session := None |},
   with_level lvl w).
Proof.
  intros Hl Hu Hk Hw Ht. unfold __init__, bind at 1, set_log_level.
  rewrite Hl. fold (with_level lvl w). cbn [truthy].
  apply String.eqb_neq in Hu. rewrite Hu, Hk, Hw.
  apply Z.eqb_neq in Ht. rewrite Ht. reflexivity.
Qed.

(** A failed job leaves the subtitle without content. *)
Lemma download_failure_keeps_content env fuel p subtitle w jid w1 w2 :
  submit_file_to_workflow env p (original_path (video subtitle)) w =
    (Ret jid, w1) ->
  truthy jid = true ->
  wait_for_completion env fuel p jid (inject_Z (timeout p)) w1 =
    Some (Ret false, w2) ->
  download_subtitle env fuel p subtitle w =
  Some (Ret tt, submitted subtitle jid, w2).
Proof.
  intros Hsub Hj Hwait. unfold download_subtitle.
  rewrite Hsub, Hj. cbn [negb]. rewrite Hwait. reflexivity.
Qed.

End ProviderFacts.

Section ProviderClaims.
Import FileFlows FileFlowsRef Samples.
Open Scope Q_scope.

(** C5, amended.  When every status check reports Processing or
    Pending, the wait loop ends, with enough fuel, by returning False
    after some number m of polls and not before the timeout has passed
    on the clock; the seconds spent in time.sleep are the first m
    intervals of the backoff and stay below the timeout plus the last
    interval slept (at most 60); the clock has advanced by less than
    that plus the duration of the last status request. *)
Theorem wait_times_out_when_job_never_finishes
        (env : Remote) (p : Provider) (s : Session) (job : pyval)
        (T : Q) (w : World) :
  session p = Some s ->
  0 <= T ->
  (forall i, 0 <= get_latency env i) ->
  (forall i, (gets w <= i)%nat -> still_running (get_reply env i)) ->
  exists N, forall fuel, (N <= fuel)%nat ->
  exists m w',
    wait_for_completion env fuel p job T w = Some (Ret false, w') /\
    gets w' = (gets w + m)%nat /\
    T <= now w' - now w /\
    slept w' - slept w == qsum check_interval_seq m /\
    slept w' - slept w < T + check_interval_seq (pred m) /\
    check_interval_seq (pred m) <= 60 /\
    now w' - now w <
      T + check_interval_seq (pred m) + get_latency env (gets w + pred m).
Proof.
  intros Hs HT Hlat Hrun.
  exists (S (Z.to_nat (Qceiling T))). intros fuel Hfuel.
  destruct fuel as [|f]; [lia|].
  assert (Hbudget : T - (now w - now w) <= 10 * inject_Z (Z.of_nat f)).
  { pose proof (Qle_ceiling T) as Hc.
    assert (Hz : (Qceiling T <= Z.of_nat f)%Z) by lia.
    rewrite Zle_Qle in Hz. lra. }
  destruct (wait_loop_times_out env p job T Hlat s (slept w) (now w) Hs
              f 10 w ltac:(lra) Hbudget ltac:(lra) Hrun)
    as [m [w' [Hr [Hg [Hex [Hsum [Hz Hp]]]]]]].
  exists m, w'. unfold wait_for_completion.
  split; [exact Hr|]. split; [exact Hg|]. split; [exact Hex|].
  rewrite backoff_sum_seq in Hsum.
  split; [lra|].
  pose proof (seq_le_60 (pred m)) as H60.
  pose proof (Hlat (gets w + pred m)%nat) as Hl.
  destruct m as [|m'].
  - rewrite (Hz eq_refl). cbn [pred check_interval_seq] in *.
    split; [lra|]. split; [lra|]. lra.
  - destruct (Hp ltac:(lia)) as [Hp1 Hp2].
    rewrite backoff_seq in Hp1, Hp2.
    split; [exact Hp1|]. split; [exact H60|exact Hp2].
Qed.

Lemma wait_times_out_when_job_never_finishes_witness :
  exists N, forall fuel, (N <= fuel)%nat ->
  exists m w',
    wait_for_completion busy_service fuel ff_provider (PStr "job-42") 25
      ff_start = Some (Ret false, w') /\
    gets w' = (gets ff_start + m)%nat /\
    25 <= now w' - now ff_start /\
    slept w' - slept ff_start == qsum check_interval_seq m /\
    slept w' - slept ff_start < 25 + check_interval_seq (pred m) /\
    check_interval_seq (pred m) <= 60 /\
    now w' - now ff_start <
      25 + check_interval_seq (pred m) +
      get_latency busy_service (gets ff_start + pred m).
Proof.
  apply (wait_times_out_when_job_never_finishes busy_service ff_provider
           {| headers :=
                [("Content-Type", "application/json");
                 ("Authorization", "Bearer secret")];
              closed := false |}
           (PStr "job-42") 25 ff_start).
  - reflexivity.
  - lra.
  - intro i. cbn. lra.
  - intros i _. exists [("uid", PStr "job-42"); ("status", PStr "Processing")].
    split; [reflexivity | left; reflexivity].
Defined.

(** C5 as stated fails: against a service whose status requests take
    100 seconds, a wait with a 25 second timeout returns False only
    after 110 seconds, more than the timeout plus any poll interval
    (at most 60): the request in flight is not cut short. *)
Lemma slow_status_overruns_timeout :
  exists w',
    wait_for_completion slow_service 3 ff_provider (PStr "job-42") 25
      ff_start = Some (Ret false, w') /\
    now w' - now ff_start == 110 /\
    slept w' - slept ff_start == 10 /\
    25 + 60 < now w' - now ff_start.
Proof.
  eexists. split; [vm_compute; reflexivity|].
  repeat split; vm_compute; reflexivity.
Qed.

(** A 25 second timeout against the busy service: two polls, 10 and 15
    seconds slept, given up at 26 seconds. *)
Example busy_job_times_out :
  exists w',
    wait_for_completion busy_service 5 ff_provider (PStr "job-42") 25
      ff_start = Some (Ret false, w') /\
    gets w' = 2%nat /\ slept w' == 25 /\ now w' == 26 /\
    net w' =
      [NetGet "http://fileflows:19200/api/flow/status/job-42" 25;
       NetGet "http://fileflows:19200/api/flow/status/job-42" 25].
Proof.
  eexists. split; [vm_compute; reflexivity|].
  repeat split; vm_compute; reflexivity.
Qed.

(** C7.  If the status request of a poll raises RequestException or is
    answered with a code other than 200, check_job_status yields None
    and the loop returns False on that poll: one request was sent, no
    sleep follows and no further request is made. *)
Theorem status_transport_failure_ends_wait
        (env : Remote) (fuel : nat) (p : Provider) (s : Session)
        (job : pyval) (T start check_interval : Q) (w : World) :
  session p = Some s ->
  now w - start < T ->
  transport_failure (get_reply env (gets w)) ->
  check_job_status env p job w = (Ret None, polled env p job w) /\
  wait_loop env (S fuel) p job T start check_interval w =
    Some (Ret false, polled env p job w) /\
  gets (polled env p job w) = S (gets w) /\
  slept (polled env p job w) = slept w.
Proof.
  intros Hs Hlt Hf.
  split; [|split; [|split; reflexivity]].
  - rewrite (check_job_status_polled env p job s w Hs).
    destruct Hf as [-> | [code [d [-> Hc]]]]; [reflexivity|].
    apply Z.eqb_neq in Hc. rewrite Hc. reflexivity.
  - exact (wait_loop_transport_failure env p job T fuel s start
             check_interval w Hs Hlt Hf).
Qed.

Lemma status_transport_failure_ends_wait_witness :
  check_job_status flaky_service ff_provider (PStr "job-42") after_first_poll
    = (Ret None,
       polled flaky_service ff_provider (PStr "job-42") after_first_poll) /\
  wait_loop flaky_service 4 ff_provider (PStr "job-42") 25 0 15
    after_first_poll =
    Some (Ret false,
          polled flaky_service ff_provider (PStr "job-42") after_first_poll) /\
  gets (polled flaky_service ff_provider (PStr "job-42") after_first_poll) =
    S (gets after_first_poll) /\
  slept (polled flaky_service ff_provider (PStr "job-42") after_first_poll) =
    slept after_first_poll.
Proof.
  apply (status_transport_failure_ends_wait flaky_service 3 ff_provider
           {| headers :=
                [("Content-Type", "application/json");
                 ("Authorization", "Bearer secret")];
              closed := false |}
           (PStr "job-42") 25 0 15 after_first_poll).
  - reflexivity.
  - vm_compute. reflexivity.
  - right. exists 503%Z, []. split; [reflexivity | discriminate].
Defined.

(** The whole call against the flaky service: the second poll fails and
    ends the wait after two requests and one sleep of 10 seconds. *)
Example flaky_status_ends_wait :
  exists w',
    wait_for_completion flaky_service 5 ff_provider (PStr "job-42") 25
      ff_start = Some (Ret false, w') /\
    gets w' = 2%nat /\ slept w' == 10.
Proof.
  eexists. split; [vm_compute; reflexivity|].
  split; vm_compute; reflexivity.
Qed.

(** C8 fails on the code: the constructor calls set_log_level(loglevel)
    first, and with loglevel left at its default None that call raises
    AttributeError, whether the four settings are given or not. *)
Theorem constructor_default_loglevel_raises
        (int_of_str : string -> option Z) (w : World) :
  __init__ int_of_str (PStr "http://fileflows:19200") (PStr "secret")
    (PStr "extract-subs") (PInt 30) PNone w = (Raise AttributeError, w) /\
  __init__ int_of_str PNone PNone PNone PNone PNone w = (Raise AttributeError, w).
Proof. split; reflexivity. Qed.

(** With the log level given, the same settings construct a provider,
    and their absence is the ConfigurationError the validation names. *)
Example constructor_with_loglevel :
  __init__ decimal (PStr "http://fileflows:19200/") (PStr "secret")
    (PStr "extract-subs") (PStr "30") (PStr "debug") ff_start =
  (Ret {| api_url := "http://fileflows:19200"; api_key := PStr "secret";
          workflow_id := PStr "extract-subs"; timeout := 30;
          session := None |},
   with_level 10 ff_start) /\
  __init__ decimal PNone (PStr "secret") (PStr "extract-subs") (PInt 30)
    (PStr "INFO") ff_start =
  (Raise (ConfigurationError "FileFlows API URL must be provided"),
   with_level 20 ff_start).
Proof. split; vm_compute; reflexivity. Qed.

(** C9.  When the submission yields a job id and the wait loop reports
    completion, download_subtitle returns normally and leaves the
    subtitle with that job id and with the empty byte string as its
    content. *)
Theorem download_success_has_empty_content
        (env : Remote) (fuel : nat) (p : Provider) (subtitle : Subtitle)
        (w : World) (jid : pyval) (w1 w2 : World) :
  submit_file_to_workflow env p (original_path (video subtitle)) w =
    (Ret jid, w1) ->
  truthy jid = true ->
  wait_for_completion env fuel p jid (inject_Z (timeout p)) w1 =
    Some (Ret true, w2) ->
  download_subtitle env fuel p subtitle w =
    Some (Ret tt, processed subtitle jid, w2) /\
  content (processed subtitle jid) = Some [].
Proof.
  intros Hsub Hj Hwait. split; [|reflexivity].
  unfold download_subtitle.
  rewrite Hsub, Hj. cbn [negb]. rewrite Hwait. reflexivity.
Qed.

Lemma download_success_has_empty_content_witness :
  download_subtitle quick_service 5 ff_provider
    (placeholder ff_provider alien_video "en") ff_start =
    Some (Ret tt,
          processed (placeholder ff_provider alien_video "en")
            (PStr "job-42"),
          after_completion) /\
  content (processed (placeholder ff_provider alien_video "en")
             (PStr "job-42")) = Some [].
Proof.
  apply (download_success_has_empty_content quick_service 5 ff_provider
           (placeholder ff_provider alien_video "en") ff_start
           (PStr "job-42") after_post after_completion).
  - reflexivity.
  - reflexivity.
  - vm_compute. reflexivity.
Defined.

(** C10.  list_subtitles returns one placeholder per requested language,
    in the order of the languages, each with that language, the video
    and the provider's workflow id; the list is as long as the request,
    so not empty unless the request is; the world is left as it was: no
    request is sent. *)
Theorem list_subtitles_one_placeholder_per_language
        (p : Provider) (video : Video) (languages : list string)
        (w : World) :
  list_subtitles p video languages w =
    (Ret (map (placeholder p video) languages), w) /\
  List.length (map (placeholder p video) languages) = List.length languages /\
  (forall i l, nth_error languages i = Some l ->
     nth_error (map (placeholder p video) languages) i =
       Some (placeholder p video l) /\
     language (placeholder p video l) = l /\
     sub_workflow_id (placeholder p video l) = workflow_id p) /\
  (languages <> [] -> map (placeholder p video) languages <> []).
Proof.
  split; [|split; [|split]].
  - unfold list_subtitles, ret.
    rewrite list_subtitles_loop_map. reflexivity.
  - apply length_map.
  - intros i l H. split; [|split; reflexivity].
    now apply map_nth_error.
  - destruct languages; [congruence | discriminate].
Qed.

(** Two languages give two placeholders, in the same order. *)
Example placeholders_for_two_languages :
  list_subtitles ff_provider alien_video ["en"; "fr"] ff_start =
  (Ret [placeholder ff_provider alien_video "en";
        placeholder ff_provider alien_video "fr"], ff_start).
Proof. reflexivity. Qed.

End ProviderClaims.

(* ---------------------------------------------------------------------- *)
(** * More on the movie driver                                             *)
(* ---------------------------------------------------------------------- *)

Section MoviesMore.
Import Movies MoviesRef Samples.

(** The loop for any registry: some prefix of the entries is resolved. *)
Lemma languages_loop_prefix env entries :
  forall acc w, exists k,
    k <= List.length entries /\
    languages_loop env entries acc w =
    (Ret (acc ++ resolve (firstn k entries)),
     {| queries := queries w + Nat.min (S k) (List.length entries);
        events := events w ++
                  repeat EvGetProviders
                    (Nat.min (S k) (List.length entries)) ++
                  (if k <? List.length entries
                   then [EvInfo throttled_msg] else []) |}).
Proof.
  induction entries as [|e rest IH]; intros acc w.
  - exists 0. split; [reflexivity|]. cbn. unfold ret.
    rewrite !app_nil_r, Nat.add_0_r. destruct w; reflexivity.
  - cbn [languages_loop]. unfold bind at 1, get_providers.
    destruct (providers_at env (queries w)) as [|pr prs].
    + exists 0. split; [lia|].
      unfold bind, emit, ret. cbn. rewrite app_nil_r, <- app_assoc. cbn.
      world_eq.
    + set (w1 := {| queries := S (queries w);
                    events := events w ++ [EvGetProviders] |}).
      destruct e as [l|].
      * destruct (IH (acc ++ [entry_request l]) w1) as [k [Hk E]].
        exists (S k). split; [cbn; lia|]. rewrite E.
        cbn [queries events w1 firstn List.length].
        change (resolve (Some l :: firstn k rest))
          with (entry_request l :: resolve (firstn k rest)).
        change (S k <? S (List.length rest)) with (k <? List.length rest).
        rewrite <- !app_assoc.
        replace (Nat.min (S (S k)) (S (List.length rest)))
          with (S (Nat.min (S k) (List.length rest))) by lia.
        cbn [app repeat]. world_eq.
      * destruct (IH acc w1) as [k [Hk E]].
        exists (S k). split; [cbn; lia|]. rewrite E.
        cbn [queries events w1 firstn List.length].
        change (resolve (None :: firstn k rest))
          with (resolve (firstn k rest)).
        change (S k <? S (List.length rest)) with (k <? List.length rest).
        rewrite <- !app_assoc.
        replace (Nat.min (S (S k)) (S (List.length rest)))
          with (S (Nat.min (S k) (List.length rest))) by lia.
        cbn [app repeat]. world_eq.
Qed.

Lemma endswith_hi_forced s :
  PyStr.endswith s ":hi" && PyStr.endswith s ":forced" = false.
Proof.
  induction s as [|a s IH]; [reflexivity|].
  cbn [PyStr.endswith].
  destruct (String.eqb_spec (String a s) ":hi") as [E1|N1].
  - injection E1 as -> ->. reflexivity.
  - destruct (String.eqb_spec (String a s) ":forced") as [E2|N2].
    + injection E2 as -> ->. reflexivity.
    + cbn [orb]. exact IH.
Qed.

Lemma split_head_prefix c s :
  PyStr.lacks c (hd EmptyString (PyStr.split c s)) = true /\
  (hd EmptyString (PyStr.split c s) = s \/
   exists r, s = (hd EmptyString (PyStr.split c s) ++ String c r)%string).
Proof.
  induction s as [|a s [IH1 IH2]]; cbn.
  - split; [reflexivity | left; reflexivity].
  - destruct (Ascii.eqb_spec a c) as [->|Hac].
    + cbn. split; [reflexivity|]. right. exists s. reflexivity.
    + destruct (PyStr.split c s) as [|w ws] eqn:E.
      * exfalso. exact (split_nonempty c s E).
      * cbn in *. apply Ascii.eqb_neq in Hac. rewrite Hac, IH1.
        split; [reflexivity|].
        destruct IH2 as [->|[r ->]]; [left; reflexivity|].
        right. exists r. reflexivity.
Qed.

Lemma sink_events_calls movie moviePath no ys :
  sink_events movie moviePath no ys =
  flat_map (result_calls movie moviePath no) (collected ys).
Proof.
  unfold sink_events, collected.
  induction ys as [|y ys IH]; [reflexivity|].
  cbn [flat_map]. rewrite flat_map_app, IH.
  destruct (result_of y); reflexivity.
Qed.

Lemma collected_length ys : List.length (collected ys) <= List.length ys.
Proof.
  unfold collected. induction ys as [|y ys IH]; [apply Nat.le_refl|].
  cbn [flat_map]. rewrite length_app. cbn [List.length].
  destruct (result_of y); cbn; lia.
Qed.

(** X1.  While the registry keeps answering with providers, it is
    queried once per decoded entry, None entries included, and the
    requests of all non-None entries are handed to generate_subtitles. *)
Theorem unthrottled_pass_queries_every_entry
        (env : Collaborators) (no : Z) (movie : Movie) (w : World) :
  db_first env no = Some movie ->
  os_path_exists env (movie_path env movie) = true ->
  (forall i, i < List.length (missing_subtitles movie) ->
             providers_at env (queries w + i) <> []) ->
  movies_download_subtitles env no w =
  (Ret ONone,
   {| queries := queries w + List.length (missing_subtitles movie);
      events :=
        events w ++
        repeat EvGetProviders (List.length (missing_subtitles movie)) ++
        pass_events env no movie (resolve (missing_subtitles movie)) |}).
Proof.
  intros Hdb Hpath Hav.
  rewrite (driver_after_loop env no movie w _ _ Hdb Hpath
             (languages_loop_all env _ [] w Hav)).
  cbn [queries events app]. rewrite <- !app_assoc. reflexivity.
Qed.

Lemma unthrottled_pass_queries_every_entry_witness :
  movies_download_subtitles (library 99 true) 7 start =
  (Ret ONone,
   {| queries := queries start + List.length (missing_subtitles alien);
      events :=
        events start ++
        repeat EvGetProviders (List.length (missing_subtitles alien)) ++
        pass_events (library 99 true) 7 alien
          (resolve (missing_subtitles alien)) |}).
Proof.
  apply (unthrottled_pass_queries_every_entry (library 99 true) 7 alien start).
  - reflexivity.
  - reflexivity.
  - intros i Hi. cbn in Hi. cbn.
    destruct (Nat.eqb_spec i 99); [lia | discriminate].
Defined.

(** X2.  For an item with an empty missing list the registry is not
    queried at all, whatever its state; progress is opened with a
    total of 0, generate_subtitles is still called, with no request,
    and progress is closed. *)
Theorem empty_missing_list_skips_registry
        (env : Collaborators) (no : Z) (movie : Movie) (w : World) :
  db_first env no = Some movie ->
  os_path_exists env (movie_path env movie) = true ->
  missing_subtitles movie = [] ->
  movies_download_subtitles env no w =
  (Ret ONone,
   {| queries := queries w;
      events :=
        events w ++
        [EvShowProgress (progress_id no) "Searching missing subtitles..."
           (title movie) 0 0;
         EvGenerate (movie_path env movie) [] (audio_name env movie)
           (str_sceneName (sceneName movie)) (title movie) "movie"
           (profileId movie) true] ++
        sink_events movie (movie_path env movie) no (generated env movie [])
        ++ [EvHideProgress (progress_id no)] |}).
Proof.
  intros Hdb Hpath Hempty.
  assert (Hloop : languages_loop env (missing_subtitles movie) [] w =
                  (Ret [], w)) by (rewrite Hempty; reflexivity).
  rewrite (driver_after_loop env no movie w _ _ Hdb Hpath Hloop).
  unfold pass_events. rewrite Hempty. reflexivity.
Qed.

Lemma empty_missing_list_skips_registry_witness :
  movies_download_subtitles archive 8 start =
  (Ret ONone,
   {| queries := queries start;
      events :=
        events start ++
        [EvShowProgress (progress_id 8) "Searching missing subtitles..."
           (title heat) 0 0;
         EvGenerate (movie_path archive heat) [] (audio_name archive heat)
           (str_sceneName (sceneName heat)) (title heat) "movie"
           (profileId heat) true] ++
        sink_events heat (movie_path archive heat) 8
          (generated archive heat [])
        ++ [EvHideProgress (progress_id 8)] |}).
Proof.
  apply (empty_missing_list_skips_registry archive 8 heat start);
    reflexivity.
Defined.

(** With no audio profile language the name passed on is "None". *)
Example empty_pass_trace :
  movies_download_subtitles archive 8 start =
  (Ret ONone,
   {| queries := 0;
      events :=
        [EvShowProgress "movie_search_progress_8"
           "Searching missing subtitles..." "Heat" 0 0;
         EvGenerate "/movies/Heat (1995)/Heat.mkv" [] "None"
           "Heat.1995.1080p" "Heat" "movie" 1 true;
         EvHideProgress "movie_search_progress_8"] |}).
Proof. vm_compute. reflexivity. Qed.

(** X3.  Whatever the registry answers during a pass over n decoded
    entries, the requests handed to generate_subtitles are those of the
    first k entries for some k <= n; the registry is queried
    min(k+1, n) times, so at most once per entry; progress is opened
    once, after the loop, with total n, and closed last. *)
Theorem requests_come_from_a_prefix
        (env : Collaborators) (no : Z) (movie : Movie) (w : World) :
  db_first env no = Some movie ->
  os_path_exists env (movie_path env movie) = true ->
  exists k,
    k <= List.length (missing_subtitles movie) /\
    movies_download_subtitles env no w =
    (Ret ONone,
     {| queries :=
          queries w + Nat.min (S k) (List.length (missing_subtitles movie));
        events :=
          events w ++
          repeat EvGetProviders
            (Nat.min (S k) (List.length (missing_subtitles movie))) ++
          (if k <? List.length (missing_subtitles movie)
           then [EvInfo throttled_msg] else []) ++
          pass_events env no movie
            (resolve (firstn k (missing_subtitles movie))) |}).
Proof.
  intros Hdb Hpath.
  destruct (languages_loop_prefix env (missing_subtitles movie) [] w)
    as [k [Hk Hloop]].
  exists k. split; [exact Hk|].
  rewrite (driver_after_loop env no movie w _ _ Hdb Hpath Hloop).
  cbn [queries events app]. rewrite <- !app_assoc. reflexivity.
Qed.

Lemma requests_come_from_a_prefix_witness :
  exists k,
    k <= List.length (missing_subtitles alien) /\
    movies_download_subtitles (library 2 true) 7 start =
    (Ret ONone,
     {| queries :=
          queries start +
          Nat.min (S k) (List.length (missing_subtitles alien));
        events :=
          events start ++
          repeat EvGetProviders
            (Nat.min (S k) (List.length (missing_subtitles alien))) ++
          (if k <? List.length (missing_subtitles alien)
           then [EvInfo throttled_msg] else []) ++
          pass_events (library 2 true) 7 alien
            (resolve (firstn k (missing_subtitles alien))) |}).
Proof.
  apply (requests_come_from_a_prefix (library 2 true) 7 alien start);
    reflexivity.
Defined.

(** X4.  The loop over the yielded values makes, for each truthy value
    and in order, a store call, a history call and a notification with
    the result's message; None and the empty tuple cause no call, and
    of a non-empty tuple only the first element is used. *)
Theorem sink_calls_per_result
        (movie : Movie) (moviePath : string) (no : Z)
        (ys : list Yielded) (w : World) :
  handle_results movie moviePath no ys w =
  (Ret tt,
   {| queries := queries w;
      events := events w ++
                flat_map (result_calls movie moviePath no) (collected ys) |})
  /\ List.length (collected ys) <= List.length ys
  /\ collected (YNone :: ys) = collected ys
  /\ collected (YTuple [] :: ys) = collected ys
  /\ (forall r more, collected (YTuple (r :: more) :: ys) = r :: collected ys)
  /\ (forall r, collected (YResult r :: ys) = r :: collected ys).
Proof.
  split; [|split; [apply collected_length | repeat split]].
  rewrite handle_results_trace, sink_events_calls. reflexivity.
Qed.

(** A tuple of two results: only the first reaches the sinks. *)
Example tuple_uses_first_result :
  handle_results alien "/m/Alien.mkv" 7
    [YNone; YTuple [en_result; second_result]; YTuple []] start =
  (Ret tt,
   {| queries := 0;
      events := [EvStore "/movies/Alien (1979)/Alien.mkv" "/m/Alien.mkv";
                 EvHistory 1 7 en_result;
                 EvNotify 7 (message en_result)] |}).
Proof. vm_compute. reflexivity. Qed.

(** X5.  For every entry string, with or without inner colons, the two
    flags are "True"/"False", "False"/"True" or "False"/"False": no
    entry is decoded as both hearing-impaired and forced. *)
Theorem entry_flags_never_both_set (language : string) :
  let hi_ := snd (fst (entry_request language)) in
  let forced_ := snd (entry_request language) in
  (hi_ = "True" /\ forced_ = "False") \/
  (hi_ = "False" /\ forced_ = "True") \/
  (hi_ = "False" /\ forced_ = "False").
Proof.
  cbn. pose proof (endswith_hi_forced language) as H.
  destruct (PyStr.endswith language ":hi");
    destruct (PyStr.endswith language ":forced"); cbn in H;
    try discriminate; auto.
Qed.

(** X6.  For every entry string the base language is the text before
    its first colon: it holds no colon and the entry is the base, or
    the base followed by a colon and the rest. *)
Theorem entry_base_is_text_before_first_colon (language : string) :
  let base := fst (fst (entry_request language)) in
  PyStr.lacks ":" base = true /\
  (base = language \/ exists r, language = (base ++ String ":" r)%string).
Proof.
  cbn. apply split_head_prefix.
Qed.

End MoviesMore.

(* ---------------------------------------------------------------------- *)
(** * More on the wait loop                                                *)
(* ---------------------------------------------------------------------- *)

Section WaitMore.
Import FileFlows FileFlowsRef.
Open Scope Q_scope.

Variable env : Remote.
Variable p : Provider.
Variable job : pyval.
Variable T : Q.

(** One round of the loop, by what the reply means. *)
Lemma wait_loop_round fuel s start ci w :
  session p = Some s ->
  now w - start < T ->
  wait_loop env (S fuel) p job T start ci w =
  match verdict (get_reply env (gets w)) with
  | Some b => Some (Ret b, polled env p job w)
  | None => wait_loop env fuel p job T start (next_interval ci)
              (sleep ci (polled env p job w))
  end.
Proof.
  intros Hs Hlt. cbn [wait_loop].
  apply Qltb_true in Hlt. rewrite Hlt.
  rewrite (check_job_status_polled env p job s w Hs).
  unfold verdict.
  destruct (get_reply env (gets w)) as [|code d]; [reflexivity|].
  destruct (code =? 200)%Z; [|reflexivity].
  destruct d as [|kv d]; [reflexivity|].
  cbn [status_falsy].
  destruct (eq_str (dict_get (kv :: d) "status") "Completed"); [reflexivity|].
  destruct (in_strs (dict_get (kv :: d) "status") ["Failed"; "Cancelled"]);
    reflexivity.
Qed.

Lemma verdict_unfinished r : unfinished r -> verdict r = None.
Proof.
  intros [kv [d [-> [H1 H2]]]]. unfold verdict. cbn [Z.eqb Pos.eqb].
  now rewrite H1, H2.
Qed.

Lemma verdict_finished b r : finished_with b r -> verdict r = Some b.
Proof.
  intros [d [-> H]]. unfold verdict. cbn [Z.eqb Pos.eqb].
  destruct d as [|kv d].
  - destruct b; cbn in H; [discriminate | destruct H; discriminate].
  - destruct b.
    + rewrite H. reflexivity.
    + destruct H as [H|H]; rewrite H; reflexivity.
Qed.

Lemma wait_loop_no_session fuel start ci w :
  session p = None ->
  now w - start < T ->
  wait_loop env (S fuel) p job T start ci w = Some (Raise AttributeError, w).
Proof.
  intros Hs Hlt. cbn [wait_loop].
  apply Qltb_true in Hlt. rewrite Hlt.
  unfold check_job_status, bind, session_get. rewrite Hs. reflexivity.
Qed.

Lemma next_interval_nonneg c : 0 <= c -> 0 <= next_interval c.
Proof.
  intro. destruct (next_interval_cases c) as [[H1 E]|[H1 E]]; lra.
Qed.

Hypothesis latency_nonneg : forall i, 0 <= get_latency env i.

Lemma rounds_time_nonneg n :
  forall g c, 0 <= c -> 0 <= rounds_time env g c n.
Proof.
  induction n as [|n IH]; intros g c Hc; cbn [rounds_time]; [lra|].
  pose proof (latency_nonneg g).
  pose proof (IH (S g) (next_interval c) (next_interval_nonneg c Hc)). lra.
Qed.


(** The first [j] replies unfinished, the next one final. *)
Lemma wait_loop_finishes s start b :
  session p = Some s ->
  forall j fuel ci w,
    (j < fuel)%nat ->
    0 <= ci ->
    (forall i, (i < j)%nat -> unfinished (get_reply env (gets w + i))) ->
    finished_with b (get_reply env (gets w + j)) ->
    (now w - start) + rounds_time env (gets w) ci j < T ->
    exists w',
      wait_loop env fuel p job T start ci w = Some (Ret b, w') /\
      gets w' = (gets w + S j)%nat /\
      net w' = net w ++ status_requests p job (S j) /\
      slept w' == slept w + backoff_sum j ci /\
      now w' ==
        now w + rounds_time env (gets w) ci j + get_latency env (gets w + j).
Proof.
  intro Hs. induction j as [|j IH]; intros fuel ci w Hf Hci Hun Hfin Ht.
  - destruct fuel as [|fuel]; [lia|].
    rewrite Nat.add_0_r in Hfin. cbn [rounds_time] in Ht.
    rewrite (wait_loop_round fuel s start ci w Hs ltac:(lra)).
    rewrite (verdict_finished b _ Hfin).
    exists (polled env p job w).
    split; [reflexivity|]. split; [cbn; lia|]. split; [reflexivity|].
    split; [cbn; lra|]. cbn. rewrite Nat.add_0_r. lra.
  - destruct fuel as [|fuel]; [lia|].
    cbn [rounds_time] in Ht.
    pose proof (latency_nonneg (gets w)) as Hlat.
    pose proof (rounds_time_nonneg j (S (gets w)) (next_interval ci)
                  (next_interval_nonneg ci Hci)) as Hpos.
    rewrite (wait_loop_round fuel s start ci w Hs ltac:(lra)).
    pose proof (Hun 0%nat ltac:(lia)) as H0. rewrite Nat.add_0_r in H0.
    rewrite (verdict_unfinished _ H0).
    set (w1 := sleep ci (polled env p job w)).
    assert (Hnow1 : now w1 == now w + get_latency env (gets w) + ci)
      by (cbn; lra).
    assert (Hsl1 : slept w1 == slept w + ci) by (cbn; lra).
    assert (Hg1 : gets w1 = S (gets w)) by reflexivity.
    destruct (IH fuel (next_interval ci) w1) as [w' [Hr [Hg [Hn [Hsl Hnw]]]]].
    + lia.
    + now apply next_interval_nonneg.
    + intros i Hi. rewrite Hg1.
      replace (S (gets w) + i)%nat with (gets w + S i)%nat by lia.
      apply Hun. lia.
    + rewrite Hg1.
      replace (S (gets w) + j)%nat with (gets w + S j)%nat by lia.
      exact Hfin.
    + rewrite Hg1. lra.
    + exists w'. split; [exact Hr|].
      split; [rewrite Hg, Hg1; lia|].
      split; [rewrite Hn; cbn; now rewrite <- app_assoc|].
      split; [cbn [backoff_sum]; lra|].
      rewrite Hg1 in Hnw. cbn [rounds_time].
      replace (gets w + S j)%nat with (S (gets w) + j)%nat by lia. lra.
Qed.

(** The loop against replies that never carry a final status. *)
Lemma wait_loop_unfinished_times_out s s0 start :
  session p = Some s ->
  forall fuel ci w,
    10 <= ci ->
    T - (now w - start) <= 10 * inject_Z (Z.of_nat fuel) ->
    slept w - s0 <= now w - start ->
    (forall i, (gets w <= i)%nat -> unfinished (get_reply env i)) ->
    exists m w',
      wait_loop env (S fuel) p job T start ci w = Some (Ret false, w') /\
      gets w' = (gets w + m)%nat /\
      T <= now w' - start /\
      slept w' == slept w + backoff_sum m ci /\
      (m = 0%nat -> w' = w) /\
      ((0 < m)%nat -> slept w' - s0 < T + backoff (pred m) ci).
Proof.
  intro Hs. induction fuel as [|fuel IH]; intros ci w Hci Hfuel Hsl Hrun.
  - assert (Hge : T <= now w - start)
      by (change (inject_Z (Z.of_nat 0)) with 0 in Hfuel; lra).
    exists 0%nat, w. rewrite wait_loop_exit by exact Hge.
    split; [reflexivity|]. split; [lia|]. split; [exact Hge|].
    split; [cbn; lra|]. split; [reflexivity|lia].
  - destruct (Qlt_le_dec (now w - start) T) as [Hlt|Hge].
    + rewrite (wait_loop_round (S fuel) s start ci w Hs Hlt).
      rewrite (verdict_unfinished _ (Hrun _ (Nat.le_refl _))).
      pose proof (latency_nonneg (gets w)) as Hlat.
      set (w1 := sleep ci (polled env p job w)).
      assert (Hnow1 : now w1 == now w + get_latency env (gets w) + ci)
        by (cbn; lra).
      assert (Hsl1 : slept w1 == slept w + ci) by (cbn; lra).
      assert (Hg1 : gets w1 = S (gets w)) by reflexivity.
      destruct (IH (next_interval ci) w1)
        as [m [w' [Hr [Hg [Hex [Hsum [Hz Hp]]]]]]].
      * now apply next_interval_ge_10.
      * rewrite Nat2Z.inj_succ, <- Z.add_1_r, inject_Z_plus in Hfuel.
        change (inject_Z 1) with 1 in Hfuel. lra.
      * lra.
      * intros i Hi. apply Hrun. rewrite Hg1 in Hi. lia.
      * exists (S m), w'. rewrite Hr.
        split; [reflexivity|].
        split; [rewrite Hg, Hg1; lia|].
        split; [exact Hex|].
        split; [cbn [backoff_sum]; lra|].
        split; [discriminate|].
        intros _. cbn [pred].
        destruct m as [|m'].
        -- rewrite (Hz eq_refl). cbn [backoff]. lra.
        -- specialize (Hp ltac:(lia)). cbn [pred] in Hp.
           cbn [backoff]. lra.
    + exists 0%nat, w. rewrite wait_loop_exit by exact Hge.
      split; [reflexivity|]. split; [lia|]. split; [exact Hge|].
      split; [cbn; lra|]. split; [reflexivity|lia].
Qed.

End WaitMore.

Lemma fuel_covers_timeout (T : Q) (f : nat) :
  (Z.to_nat (Qceiling T) <= f)%nat ->
  (T <= 10 * inject_Z (Z.of_nat f))%Q.
Proof.
  intro Hf. pose proof (Qle_ceiling T) as Hc.
  assert (Hz : (Qceiling T <= Z.of_nat f)%Z) by lia.
  assert (H0 : (0 <= Z.of_nat f)%Z) by lia.
  rewrite Zle_Qle in Hz, H0. change (inject_Z 0) with 0%Q in H0. lra.
Qed.

Section WaitExtras.
Import FileFlows FileFlowsRef Samples.
Open Scope Q_scope.



(** X8.  If the first j status replies are unfinished and the next one
    reports Completed, Failed or Cancelled while the j rounds before it
    fit into max_wait_time, the wait returns True for Completed and
    False otherwise, after exactly j + 1 requests and j sleeps of the
    first j backoff intervals. *)
Theorem wait_result_is_first_final_status
        (env : Remote) (p : Provider) (s : Session) (job : pyval)
        (T : Q) (w : World) (j : nat) (b : bool) (fuel : nat) :
  session p = Some s ->
  (forall i, 0 <= get_latency env i) ->
  (forall i, (i < j)%nat -> unfinished (get_reply env (gets w + i))) ->
  finished_with b (get_reply env (gets w + j)) ->
  rounds_time env (gets w) 10 j < T ->
  (j < fuel)%nat ->
  exists w',
    wait_for_completion env fuel p job T w = Some (Ret b, w') /\
    gets w' = (gets w + S j)%nat /\
    net w' = net w ++ status_requests p job (S j) /\
    slept w' - slept w == qsum check_interval_seq j /\
    now w' - now w ==
      rounds_time env (gets w) 10 j + get_latency env (gets w + j).
Proof.
  intros Hs Hlat Hun Hfin Ht Hf.
  destruct (wait_loop_finishes env p job T Hlat s (now w) b Hs j fuel 10 w
              Hf ltac:(lra) Hun Hfin ltac:(lra))
    as [w' [Hr [Hg [Hn [Hsl Hnw]]]]].
  exists w'. unfold wait_for_completion.
  split; [exact Hr|]. split; [exact Hg|]. split; [exact Hn|].
  rewrite backoff_sum_seq in Hsl. split; lra.
Qed.

Lemma wait_result_is_first_final_status_witness :
  exists w',
    wait_for_completion quick_service 5 ff_provider (PStr "job-42") 25
      ff_start = Some (Ret true, w') /\
    gets w' = (gets ff_start + 2)%nat /\
    net w' = net ff_start ++ status_requests ff_provider (PStr "job-42") 2 /\
    slept w' - slept ff_start == qsum check_interval_seq 1 /\
    now w' - now ff_start ==
      rounds_time quick_service (gets ff_start) 10 1 +
      get_latency quick_service (gets ff_start + 1).
Proof.
  apply (wait_result_is_first_final_status quick_service ff_provider
           ff_session (PStr "job-42") 25 ff_start 1 true 5).
  - reflexivity.
  - intro i. cbn. lra.
  - intros i Hi. assert (i = 0)%nat as -> by lia.
    exists ("uid", PStr "job-42"), [("status", PStr "Processing")].
    repeat split.
  - exists [("uid", PStr "job-42"); ("status", PStr "Completed")].
    split; reflexivity.
  - vm_compute. reflexivity.
  - lia.
Defined.

(** X9.  With max_wait_time zero or negative the wait returns False at
    once: no status request is sent, nothing is slept, and no session
    is needed. *)
Theorem wait_with_nonpositive_timeout_never_polls
        (env : Remote) (fuel : nat) (p : Provider) (job : pyval)
        (T : Q) (w : World) :
  T <= 0 ->
  wait_for_completion env (S fuel) p job T w = Some (Ret false, w).
Proof.
  intro HT. unfold wait_for_completion.
  apply wait_loop_exit. lra.
Qed.

Lemma wait_with_nonpositive_timeout_never_polls_witness :
  wait_for_completion busy_service 1 cold_provider (PStr "job-42") (-5)
    ff_start = Some (Ret false, ff_start).
Proof.
  apply (wait_with_nonpositive_timeout_never_polls busy_service 0
           cold_provider (PStr "job-42") (-5) ff_start).
  lra.
Defined.

(** X10.  A status object that is not empty but has no status key, or a
    status other than exactly Completed, Failed or Cancelled, counts as
    still running: if every reply is like that, the wait polls until
    max_wait_time has passed and then returns False, having slept the
    first m backoff intervals, less than max_wait_time plus the last. *)
Theorem unrecognised_status_polls_until_timeout
        (env : Remote) (p : Provider) (s : Session) (job : pyval)
        (T : Q) (w : World) :
  session p = Some s ->
  0 <= T ->
  (forall i, 0 <= get_latency env i) ->
  (forall i, (gets w <= i)%nat -> unfinished (get_reply env i)) ->
  exists N, forall fuel, (N <= fuel)%nat ->
  exists m w',
    wait_for_completion env fuel p job T w = Some (Ret false, w') /\
    gets w' = (gets w + m)%nat /\
    T <= now w' - now w /\
    slept w' - slept w == qsum check_interval_seq m /\
    slept w' - slept w < T + check_interval_seq (pred m).
Proof.
  intros Hs HT Hlat Hrun.
  exists (S (Z.to_nat (Qceiling T))). intros fuel Hfuel.
  destruct fuel as [|f]; [lia|].
  pose proof (fuel_covers_timeout T f ltac:(lia)) as Hb.
  destruct (wait_loop_unfinished_times_out env p job T Hlat s (slept w)
              (now w) Hs f 10 w ltac:(lra) ltac:(lra) ltac:(lra) Hrun)
    as [m [w' [Hr [Hg [Hex [Hsum [Hz Hp]]]]]]].
  exists m, w'. unfold wait_for_completion.
  split; [exact Hr|]. split; [exact Hg|]. split; [exact Hex|].
  rewrite backoff_sum_seq in Hsum. split; [lra|].
  destruct m as [|m'].
  - rewrite (Hz eq_refl). cbn [pred check_interval_seq]. lra.
  - specialize (Hp ltac:(lia)). rewrite backoff_seq in Hp. exact Hp.
Qed.

Lemma unrecognised_status_polls_until_timeout_witness :
  exists N, forall fuel, (N <= fuel)%nat ->
  exists m w',
    wait_for_completion vague_service fuel ff_provider (PStr "job-42") 25
      ff_start = Some (Ret false, w') /\
    gets w' = (gets ff_start + m)%nat /\
    25 <= now w' - now ff_start /\
    slept w' - slept ff_start == qsum check_interval_seq m /\
    slept w' - slept ff_start < 25 + check_interval_seq (pred m).
Proof.
  apply (unrecognised_status_polls_until_timeout vague_service ff_provider
           ff_session (PStr "job-42") 25 ff_start).
  - reflexivity.
  - lra.
  - intro i. cbn. lra.
  - intros i _. exists ("state", PStr "completed"), []. repeat split.
Defined.

(** X11.  A 200 reply whose JSON object is empty is falsy: the wait
    returns False on that poll, with one request sent, no sleep and no
    further request. *)
Theorem empty_status_object_ends_wait
        (env : Remote) (fuel : nat) (p : Provider) (s : Session)
        (job : pyval) (T start check_interval : Q) (w : World) :
  session p = Some s ->
  now w - start < T ->
  get_reply env (gets w) = Response 200 [] ->
  wait_loop env (S fuel) p job T start check_interval w =
    Some (Ret false, polled env p job w) /\
  gets (polled env p job w) = S (gets w) /\
  slept (polled env p job w) = slept w.
Proof.
  intros Hs Hlt Hr. split; [|split; reflexivity].
  rewrite (wait_loop_round env p job T fuel s start check_interval w Hs Hlt).
  rewrite Hr. reflexivity.
Qed.

Lemma empty_status_object_ends_wait_witness :
  wait_loop closed_service 1 ff_provider (PStr "job-42") 25 0 10 ff_start =
    Some (Ret false, polled closed_service ff_provider (PStr "job-42")
                       ff_start) /\
  gets (polled closed_service ff_provider (PStr "job-42") ff_start) =
    S (gets ff_start) /\
  slept (polled closed_service ff_provider (PStr "job-42") ff_start) =
    slept ff_start.
Proof.
  apply (empty_status_object_ends_wait closed_service 0 ff_provider
           ff_session (PStr "job-42") 25 0 10 ff_start).
  - reflexivity.
  - vm_compute. reflexivity.
  - reflexivity.
Defined.

End WaitExtras.

(* ---------------------------------------------------------------------- *)
(** * More on the provider                                                 *)
(* ---------------------------------------------------------------------- *)

Section ProviderMore.
Import FileFlows FileFlowsRef.

Lemma rstrip_decompose c s :
  exists k, s = (PyStr.rstrip c s ++ repeat_char c k)%string.
Proof.
  induction s as [|a s [k IH]].
  - exists 0. reflexivity.
  - cbn [PyStr.rstrip].
    destruct (PyStr.rstrip c s) as [|b r] eqn:E.
    + destruct (Ascii.eqb_spec a c) as [->|Hac].
      * exists (S k). cbn. cbn in IH. now rewrite <- IH.
      * exists k. cbn. cbn in IH. now rewrite <- IH.
    + exists k. cbn. cbn in IH. now rewrite <- IH.
Qed.

Lemma endswith_cons a s suffix :
  PyStr.endswith (String a s) suffix =
  ((String a s =? suffix)%string || PyStr.endswith s suffix).
Proof. reflexivity. Qed.

Lemma rstrip_no_trailing c s :
  PyStr.endswith (PyStr.rstrip c s) (String c EmptyString) = false.
Proof.
  induction s as [|a s IH]; [reflexivity|].
  cbn [PyStr.rstrip].
  destruct (PyStr.rstrip c s) as [|b r] eqn:E.
  - destruct (Ascii.eqb_spec a c) as [->|Hac]; [reflexivity|].
    cbn. apply Ascii.eqb_neq in Hac. now rewrite Hac.
  - rewrite endswith_cons, IH.
    cbn. destruct (Ascii.eqb a c); reflexivity.
Qed.

Lemma upper_ascii_idempotent a :
  PyStr.upper_ascii (PyStr.upper_ascii a) = PyStr.upper_ascii a.
Proof.
  destruct a as [[] [] [] [] [] [] [] []]; reflexivity.
Qed.

Lemma upper_idempotent s : PyStr.upper (PyStr.upper s) = PyStr.upper s.
Proof.
  induction s as [|a s IH]; [reflexivity|].
  cbn. now rewrite upper_ascii_idempotent, IH.
Qed.

Lemma append_inj_r a x y : (a ++ x)%string = (a ++ y)%string -> x = y.
Proof.
  induction a as [|c a IH]; cbn; intro H; [exact H|].
  injection H as H. exact (IH H).
Qed.

Lemma subtitle_id_inj p video l1 l2 :
  subtitle_id (placeholder p video l1) = subtitle_id (placeholder p video l2)
  -> l1 = l2.
Proof.
  unfold subtitle_id. cbn. intro H.
  apply append_inj_r in H. injection H as H.
  apply append_inj_r in H. injection H as H. exact H.
Qed.

Lemma submit_posted env p s file_path w :
  session p = Some s ->
  os_path_exists env file_path = true ->
  submit_file_to_workflow env p file_path w =
  (Ret match post_reply env file_path with
       | Response code d =>
           if (code =? 200)%Z then dict_get d "uid" else PNone
       | RequestException => PNone
       end,
   posted env p file_path w).
Proof.
  intros Hs Hex. unfold submit_file_to_workflow. rewrite Hex. cbn [negb].
  unfold bind, session_post. rewrite Hs.
  fold (process_url p). fold (posted env p file_path w).
  destruct (post_reply env file_path) as [|code d]; [reflexivity|].
  destruct (code =? 200)%Z; reflexivity.
Qed.

End ProviderMore.

Section ProviderExtras.
Import FileFlows FileFlowsRef Samples.
Open Scope Q_scope.

(** X12.  On a provider whose session was never opened (initialize not
    called), ping and check_job_status raise AttributeError instead of
    returning, and so do submit_file_to_workflow and download_subtitle
    for a file that exists and wait_for_completion with a positive
    timeout; no request is sent. *)
Theorem uninitialized_provider_raises
        (env : Remote) (fuel : nat) (p : Provider) (job : pyval)
        (subtitle : Subtitle) (T : Q) (w : World) :
  session p = None ->
  ping env p w = (Raise AttributeError, w) /\
  check_job_status env p job w = (Raise AttributeError, w) /\
  (os_path_exists env (original_path (video subtitle)) = true ->
   submit_file_to_workflow env p (original_path (video subtitle)) w =
     (Raise AttributeError, w) /\
   download_subtitle env fuel p subtitle w =
     Some (Raise AttributeError, subtitle, w)) /\
  (0 < T ->
   wait_for_completion env (S fuel) p job T w =
     Some (Raise AttributeError, w)).
Proof.
  intro Hs.
  assert (Hsub : os_path_exists env (original_path (video subtitle)) = true ->
                 submit_file_to_workflow env p
                   (original_path (video subtitle)) w =
                 (Raise AttributeError, w)).
  { intro Hex. unfold submit_file_to_workflow, bind, session_post.
    rewrite Hex, Hs. reflexivity. }
  split; [|split; [|split]].
  - unfold ping, bind, session_get. rewrite Hs. reflexivity.
  - unfold check_job_status, bind, session_get. rewrite Hs. reflexivity.
  - intro Hex. split; [exact (Hsub Hex)|].
    unfold download_subtitle. rewrite (Hsub Hex). reflexivity.
  - intro HT. unfold wait_for_completion.
    apply wait_loop_no_session; [exact Hs | lra].
Qed.

Lemma uninitialized_provider_raises_witness :
  ping busy_service cold_provider ff_start = (Raise AttributeError, ff_start) /\
  check_job_status busy_service cold_provider (PStr "job-42") ff_start =
    (Raise AttributeError, ff_start) /\
  (os_path_exists busy_service (original_path (video en_placeholder)) = true ->
   submit_file_to_workflow busy_service cold_provider
     (original_path (video en_placeholder)) ff_start =
     (Raise AttributeError, ff_start) /\
   download_subtitle busy_service 3 cold_provider en_placeholder ff_start =
     Some (Raise AttributeError, en_placeholder, ff_start)) /\
  (0 < 25 ->
   wait_for_completion busy_service 4 cold_provider (PStr "job-42") 25
     ff_start = Some (Raise AttributeError, ff_start)).
Proof.
  apply (uninitialized_provider_raises busy_service 3 cold_provider
           (PStr "job-42") en_placeholder 25 ff_start).
  reflexivity.
Defined.

(** X13.  download_subtitle never touches the subtitle's language,
    video or workflow id; it leaves the subtitle as it was, or stores a
    truthy job id and then either keeps the content or, only when it
    returns normally, sets it to the empty byte string. *)
Theorem download_keeps_subtitle_identity
        (env : Remote) (fuel : nat) (p : Provider) (subtitle : Subtitle)
        (w : World) (r : outcome unit) (subtitle' : Subtitle) (w' : World) :
  download_subtitle env fuel p subtitle w = Some (r, subtitle', w') ->
  language subtitle' = language subtitle /\
  video subtitle' = video subtitle /\
  sub_workflow_id subtitle' = sub_workflow_id subtitle /\
  (subtitle' = subtitle \/
   (truthy (job_id subtitle') = true /\
    (content subtitle' = content subtitle \/
     (content subtitle' = Some [] /\ r = Ret tt)))).
Proof.
  unfold download_subtitle.
  destruct (submit_file_to_workflow env p (original_path (video subtitle)) w)
    as [[jid|e] w1].
  - destruct (truthy jid) eqn:Hj; cbn [negb].
    + destruct (wait_for_completion env fuel p jid (inject_Z (timeout p)) w1)
        as [[[[|]|e] w2]|]; intro H; try discriminate;
        injection H as <- <- <-; cbn; repeat split; right; split; auto.
    + intro H. injection H as <- <- <-. repeat split. left. reflexivity.
  - intro H. injection H as <- <- <-. repeat split. left. reflexivity.
Qed.

Lemma download_keeps_subtitle_identity_witness :
  language (processed en_placeholder (PStr "job-42")) =
    language en_placeholder /\
  video (processed en_placeholder (PStr "job-42")) = video en_placeholder /\
  sub_workflow_id (processed en_placeholder (PStr "job-42")) =
    sub_workflow_id en_placeholder /\
  (processed en_placeholder (PStr "job-42") = en_placeholder \/
   (truthy (job_id (processed en_placeholder (PStr "job-42"))) = true /\
    (content (processed en_placeholder (PStr "job-42")) =
       content en_placeholder \/
     (content (processed en_placeholder (PStr "job-42")) = Some [] /\
      Ret tt = Ret tt)))).
Proof.
  apply (download_keeps_subtitle_identity quick_service 5 ff_provider
           en_placeholder ff_start (Ret tt)
           (processed en_placeholder (PStr "job-42")) after_completion).
  vm_compute. reflexivity.
Defined.

(** X14.  When the video file is not on disk, download_subtitle returns
    normally without sending any request and without touching the
    subtitle, for any provider, initialized or not. *)
Theorem download_of_missing_file_does_nothing
        (env : Remote) (fuel : nat) (p : Provider) (subtitle : Subtitle)
        (w : World) :
  os_path_exists env (original_path (video subtitle)) = false ->
  submit_file_to_workflow env p (original_path (video subtitle)) w =
    (Ret PNone, w) /\
  download_subtitle env fuel p subtitle w = Some (Ret tt, subtitle, w).
Proof.
  intro Hex.
  assert (Hsub : submit_file_to_workflow env p
                   (original_path (video subtitle)) w = (Ret PNone, w)).
  { unfold submit_file_to_workflow. rewrite Hex. reflexivity. }
  split; [exact Hsub|].
  unfold download_subtitle. rewrite Hsub. reflexivity.
Qed.

Lemma download_of_missing_file_does_nothing_witness :
  submit_file_to_workflow blank_service cold_provider
    (original_path (video en_placeholder)) ff_start = (Ret PNone, ff_start) /\
  download_subtitle blank_service 0 cold_provider en_placeholder ff_start =
    Some (Ret tt, en_placeholder, ff_start).
Proof.
  apply (download_of_missing_file_does_nothing blank_service 0 cold_provider
           en_placeholder ff_start).
  reflexivity.
Defined.

(** X15.  When the submission gives no job id (the request fails, the
    code is not 200, or the reply has no truthy uid), download_subtitle
    returns normally after that one POST: no status request follows
    and the subtitle is untouched. *)
Theorem rejected_submission_leaves_subtitle
        (env : Remote) (fuel : nat) (p : Provider) (s : Session)
        (subtitle : Subtitle) (w : World) :
  session p = Some s ->
  os_path_exists env (original_path (video subtitle)) = true ->
  (post_reply env (original_path (video subtitle)) = RequestException \/
   exists code d,
     post_reply env (original_path (video subtitle)) = Response code d /\
     (code <> 200%Z \/ truthy (dict_get d "uid") = false)) ->
  download_subtitle env fuel p subtitle w =
    Some (Ret tt, subtitle,
          posted env p (original_path (video subtitle)) w) /\
  gets (posted env p (original_path (video subtitle)) w) = gets w.
Proof.
  intros Hs Hex Hrej. split; [|reflexivity].
  unfold download_subtitle.
  rewrite (submit_posted env p s _ w Hs Hex).
  destruct Hrej as [-> | [code [d [-> [Hc|Hu]]]]].
  - reflexivity.
  - apply Z.eqb_neq in Hc. rewrite Hc. reflexivity.
  - destruct (code =? 200)%Z; [rewrite Hu|]; reflexivity.
Qed.

Lemma rejected_submission_leaves_subtitle_witness :
  download_subtitle closed_service 0 ff_provider en_placeholder ff_start =
    Some (Ret tt, en_placeholder,
          posted closed_service ff_provider
            (original_path (video en_placeholder)) ff_start) /\
  gets (posted closed_service ff_provider
          (original_path (video en_placeholder)) ff_start) = gets ff_start.
Proof.
  apply (rejected_submission_leaves_subtitle closed_service 0 ff_provider
           ff_session en_placeholder ff_start).
  - reflexivity.
  - reflexivity.
  - right. exists 500%Z, []. split; [reflexivity | left; discriminate].
Defined.

(** X17.  End to end: the file exists, the POST is answered 200 with a
    truthy uid, the first j status replies are unfinished and the next
    one is final, all within the provider's timeout.  Then
    download_subtitle returns normally after one POST and j + 1 GETs
    for that uid; the content is the empty byte string if the final
    status is Completed and is left as it was if it is Failed or
    Cancelled. *)
Theorem download_follows_job_to_its_end
        (env : Remote) (fuel : nat) (p : Provider) (s : Session)
        (subtitle : Subtitle) (w : World) (d : dict) (j : nat) (b : bool) :
  session p = Some s ->
  os_path_exists env (original_path (video subtitle)) = true ->
  post_reply env (original_path (video subtitle)) = Response 200 d ->
  truthy (dict_get d "uid") = true ->
  (forall i, 0 <= get_latency env i) ->
  (forall i, (i < j)%nat -> unfinished (get_reply env (gets w + i))) ->
  finished_with b (get_reply env (gets w + j)) ->
  rounds_time env (gets w) 10 j < inject_Z (timeout p) ->
  (j < fuel)%nat ->
  exists w',
    download_subtitle env fuel p subtitle w =
      Some (Ret tt,
            (if b then processed subtitle (dict_get d "uid")
             else submitted subtitle (dict_get d "uid")),
            w') /\
    net w' =
      net w ++
      [NetPost (process_url p) (original_path (video subtitle))
         (workflow_id p) (timeout p)] ++
      status_requests p (dict_get d "uid") (S j) /\
    gets w' = (gets w + S j)%nat.
Proof.
  intros Hs Hex Hr Hu Hlat Hun Hfin Ht Hf.
  set (w1 := posted env p (original_path (video subtitle)) w).
  destruct (wait_loop_finishes env p (dict_get d "uid")
              (inject_Z (timeout p)) Hlat s (now w1) b Hs j fuel 10 w1
              Hf ltac:(lra) Hun Hfin)
    as [w' [Hrun [Hg [Hn _]]]].
  { change (gets w1) with (gets w). lra. }
  exists w'. unfold download_subtitle.
  rewrite (submit_posted env p s _ w Hs Hex), Hr. cbn [Z.eqb Pos.eqb].
  rewrite Hu. cbn [negb]. fold w1.
  unfold wait_for_completion. rewrite Hrun.
  split; [destruct b; reflexivity|].
  split; [rewrite Hn; unfold w1; cbn [net posted];
          rewrite <- app_assoc; reflexivity|].
  exact Hg.
Qed.

Lemma download_follows_job_to_its_end_witness :
  exists w',
    download_subtitle quick_service 5 ff_provider en_placeholder ff_start =
      Some (Ret tt,
            (if true
             then processed en_placeholder
                    (dict_get [("uid", PStr "job-42")] "uid")
             else submitted en_placeholder
                    (dict_get [("uid", PStr "job-42")] "uid")),
            w') /\
    net w' =
      net ff_start ++
      [NetPost (process_url ff_provider)
         (original_path (video en_placeholder))
         (workflow_id ff_provider) (timeout ff_provider)] ++
      status_requests ff_provider
        (dict_get [("uid", PStr "job-42")] "uid") 2 /\
    gets w' = (gets ff_start + 2)%nat.
Proof.
  apply (download_follows_job_to_its_end quick_service 5 ff_provider
           ff_session en_placeholder ff_start [("uid", PStr "job-42")]
           1 true).
  - reflexivity.
  - reflexivity.
  - reflexivity.
  - reflexivity.
  - intro i. cbn. lra.
  - intros i Hi. assert (i = 0)%nat as -> by lia.
    exists ("uid", PStr "job-42"), [("status", PStr "Processing")].
    repeat split.
  - exists [("uid", PStr "job-42"); ("status", PStr "Completed")].
    split; reflexivity.
  - vm_compute. reflexivity.
  - lia.
Defined.

End ProviderExtras.

Section ConstructionExtras.
Import FileFlows FileFlowsRef Samples.

Lemma set_log_level_outcome v w :
  (exists lvl, set_log_level v w = (Ret tt, with_level lvl w)) \/
  set_log_level v w = (Raise AttributeError, w).
Proof.
  unfold set_log_level.
  destruct v as [| | |s]; try (right; reflexivity).
  destruct (logging_level (PyStr.upper s)) as [lvl|].
  - left. exists lvl. reflexivity.
  - right. reflexivity.
Qed.

(** X18.  Whatever its five arguments are, the constructor sends no
    request, does not advance the clock and sleeps nothing; when it
    returns a provider, all four settings were truthy, the key and the
    workflow id are stored as given, and no session is open yet. *)
Theorem constructor_sends_nothing
        (int_of_str : string -> option Z)
        (api_url api_key workflow_id timeout loglevel : pyval) (w : World) :
  let out :=
    __init__ int_of_str api_url api_key workflow_id timeout loglevel w in
  net (snd out) = net w /\ gets (snd out) = gets w /\
  now (snd out) = now w /\ slept (snd out) = slept w /\
  match fst out with
  | Ret p =>
      session p = None /\
      FileFlows.api_key p = api_key /\
      FileFlows.workflow_id p = workflow_id /\
      truthy api_url && truthy api_key && truthy workflow_id &&
        truthy timeout = true
  | Raise _ => True
  end.
Proof.
  cbv zeta.
  destruct (__init__ int_of_str api_url api_key workflow_id timeout
              loglevel w) as [r w'] eqn:E.
  cbn [fst snd]. revert E. unfold __init__, bind at 1.
  destruct (set_log_level_outcome loglevel w) as [[lvl ->] | ->];
    [|intro E; injection E as <- <-; auto].
  destruct (truthy api_url) eqn:Hu; cbn [negb];
    [|intro E; injection E as <- <-; cbn; auto].
  destruct (truthy api_key) eqn:Hk; cbn [negb];
    [|intro E; injection E as <- <-; cbn; auto].
  destruct (truthy workflow_id) eqn:Hw; cbn [negb];
    [|intro E; injection E as <- <-; cbn; auto].
  destruct (truthy timeout) eqn:Ht; cbn [negb];
    [|intro E; injection E as <- <-; cbn; auto].
  assert (Hall : truthy api_url && truthy api_key && truthy workflow_id &&
                   truthy timeout = true)
    by (rewrite Hu, Hk, Hw, Ht; reflexivity).
  clear Hu Hk Hw Ht. revert Hall.
  unfold bind, ret, raise, py_int.
  destruct api_url as [| | |u];
    try (intros _ E; injection E as <- <-; cbn; auto; fail).
  destruct timeout as [|b|t|ts]; intros Hall E.
  - injection E as <- <-. cbn. auto.
  - injection E as <- <-. cbn [net gets now slept with_level session
                                 FileFlows.api_key FileFlows.workflow_id].
    repeat split; exact Hall.
  - injection E as <- <-. cbn [net gets now slept with_level session
                                 FileFlows.api_key FileFlows.workflow_id].
    repeat split; exact Hall.
  - destruct (int_of_str ts); injection E as <- <-; [|cbn; auto].
    cbn [net gets now slept with_level session
           FileFlows.api_key FileFlows.workflow_id].
    repeat split; exact Hall.
Qed.

(** X19.  With a known log level, a non-empty URL, truthy key and
    workflow id and a non-zero integer timeout, the constructor stores
    the URL without its trailing slashes: the stored URL does not end
    in a slash and the given URL is the stored one followed by slashes
    only. *)
Theorem constructor_strips_trailing_slashes
        (int_of_str : string -> option Z) (url : string)
        (api_key workflow_id : pyval) (t : Z) (level : string) (lvl : Z)
        (w : World) :
  logging_level (PyStr.upper level) = Some lvl ->
  url <> EmptyString ->
  truthy api_key = true ->
  truthy workflow_id = true ->
  t <> 0%Z ->
  exists p k,
    __init__ int_of_str (PStr url) api_key workflow_id (PInt t)
      (PStr level) w = (Ret p, with_level lvl w) /\
    url = (api_url p ++ repeat_char "/" k)%string /\
    PyStr.endswith (api_url p) "/" = false /\
    timeout p = t.
Proof.
  intros Hl Hu Hk Hw Ht.
  destruct (rstrip_decompose "/" url) as [k Hd].
  eexists _, k.
  rewrite (init_complete int_of_str url api_key workflow_id t level lvl w
             Hl Hu Hk Hw Ht).
  split; [reflexivity|]. cbn [api_url timeout].
  split; [exact Hd|]. split; [apply rstrip_no_trailing | reflexivity].
Qed.

Lemma constructor_strips_trailing_slashes_witness :
  exists p k,
    __init__ decimal (PStr "http://fileflows:19200//") (PStr "secret")
      (PStr "extract-subs") (PInt (-5)) (PStr "warning") ff_start =
      (Ret p, with_level 30 ff_start) /\
    "http://fileflows:19200//" = (api_url p ++ repeat_char "/" k)%string /\
    PyStr.endswith (api_url p) "/" = false /\
    timeout p = (-5)%Z.
Proof.
  apply (constructor_strips_trailing_slashes decimal
           "http://fileflows:19200//" (PStr "secret") (PStr "extract-subs")
           (-5) "warning" 30 ff_start).
  - reflexivity.
  - discriminate.
  - reflexivity.
  - reflexivity.
  - discriminate.
Defined.

(** X20.  The level names are read without regard to case: when the
    upper-case form of the argument is one of CRITICAL, FATAL, ERROR,
    WARNING, WARN, INFO, DEBUG, NOTSET, set_log_level sets the logger
    to that level and changes nothing else, for the name as given and
    for its upper-case form alike. *)
Theorem set_log_level_ignores_case (name : string) (lvl : Z) (w : World) :
  logging_level (PyStr.upper name) = Some lvl ->
  set_log_level (PStr name) w = (Ret tt, with_level lvl w) /\
  set_log_level (PStr (PyStr.upper name)) w = (Ret tt, with_level lvl w).
Proof.
  intro Hl. unfold set_log_level.
  rewrite upper_idempotent, Hl. split; reflexivity.
Qed.

Lemma set_log_level_ignores_case_witness :
  set_log_level (PStr "Debug") ff_start = (Ret tt, with_level 10 ff_start) /\
  set_log_level (PStr (PyStr.upper "Debug")) ff_start =
    (Ret tt, with_level 10 ff_start).
Proof.
  apply (set_log_level_ignores_case "Debug" 10 ff_start).
  reflexivity.
Defined.

(** The level names in mixed case. *)
Example log_level_in_mixed_case :
  set_log_level (PStr "Debug") ff_start = (Ret tt, with_level 10 ff_start) /\
  set_log_level (PStr "verbose") ff_start = (Raise AttributeError, ff_start).
Proof. split; reflexivity. Qed.

(** X21.  For requested languages whose string forms are pairwise
    distinct, the placeholders returned by list_subtitles have pairwise
    distinct ids. *)
Theorem placeholder_ids_are_distinct
        (p : Provider) (video : Video) (languages : list string)
        (w : World) :
  NoDup languages ->
  exists subtitles,
    list_subtitles p video languages w = (Ret subtitles, w) /\
    NoDup (map subtitle_id subtitles).
Proof.
  intro Hnd. exists (map (placeholder p video) languages).
  split.
  - unfold list_subtitles, ret. rewrite list_subtitles_loop_map. reflexivity.
  - induction Hnd as [|l ls Hnot Hnd IH]; cbn [map]; constructor.
    + intro Hin. apply in_map_iff in Hin as [x [Hx Hin]].
      apply in_map_iff in Hin as [l' [<- Hl']].
      apply subtitle_id_inj in Hx. subst l'. exact (Hnot Hl').
    + exact IH.
Qed.

Lemma placeholder_ids_are_distinct_witness :
  exists subtitles,
    list_subtitles ff_provider alien_video ["en"; "fr"; "pt"] ff_start =
      (Ret subtitles, ff_start) /\
    NoDup (map subtitle_id subtitles).
Proof.
  apply (placeholder_ids_are_distinct ff_provider alien_video
           ["en"; "fr"; "pt"] ff_start).
  repeat constructor; cbn; intuition discriminate.
Defined.

(** The id of a placeholder. *)
Example placeholder_id :
  subtitle_id en_placeholder = "Alien.mkv_extract-subs_en".
Proof. reflexivity. Qed.

(** X22.  terminate changes nothing on a provider without a session
    and otherwise only marks the session closed; it is idempotent and
    never alters the settings.  initialize opens a fresh session that
    carries the bearer token of the key, also after terminate. *)
Theorem terminate_and_initialize (p : Provider) :
  same_settings (terminate p) p /\
  same_settings (initialize p) p /\
  terminate (terminate p) = terminate p /\
  initialize (terminate p) = initialize p /\
  match session p with
  | None => terminate p = p
  | Some s =>
      session (terminate p) =
      Some {| headers := headers s; closed := true |}
  end /\
  session (initialize p) =
    Some {| headers :=
              [("Content-Type", "application/json");
               ("Authorization",
                ("Bearer " ++ PyStr.str (api_key p))%string)];
            closed := false |}.
Proof.
  unfold same_settings, terminate, initialize.
  destruct p as [u k wf t [s|]]; cbn; repeat split.
Qed.

End ConstructionExtras.

(* ---------------------------------------------------------------------- *)
(** * The driver on the stored text                                        *)
(* ---------------------------------------------------------------------- *)

Section RawDriver.
Import MoviesRef Samples.

Lemma raw_loop_decoded env entries :
  forall acc w,
    MoviesRaw.languages_loop env (map MoviesRaw.lit_of_entry entries) acc w =
    Movies.languages_loop env entries acc w.
Proof.
  induction entries as [|e rest IH]; intros acc w; [reflexivity|].
  cbn [map MoviesRaw.languages_loop Movies.languages_loop].
  unfold Movies.bind at 1 3.
  destruct (Movies.get_providers env w) as [[[|pr prs]|ex] w1];
    try reflexivity.
  destruct e as [l|]; cbn [MoviesRaw.lit_of_entry]; apply IH.
Qed.

Lemma raw_handle_results_decoded (movie : Movies.Movie) moviePath no ys :
  forall w,
    MoviesRaw.handle_results (Movies.path movie) moviePath no ys w =
    Movies.handle_results movie moviePath no ys w.
Proof.
  induction ys as [|y ys IH]; intro w; [reflexivity|].
  change (MoviesRaw.handle_results (Movies.path movie) moviePath no
            (y :: ys) w)
    with (Movies.bind (Movies.handle_result movie moviePath no y)
            (fun _ => MoviesRaw.handle_results (Movies.path movie)
                        moviePath no ys) w).
  cbn [Movies.handle_results]. unfold Movies.bind.
  destruct (Movies.handle_result movie moviePath no y w) as [[u|ex] w1];
    [apply IH | reflexivity].
Qed.

Lemma bind_returns {A B} (m : Movies.M A) (k : A -> Movies.M B) w a w' :
  m w = (Ret a, w') -> Movies.bind m k w = k a w'.
Proof. intro H. unfold Movies.bind. now rewrite H. Qed.

(** On a state that decodes to a list of strings and None the driver
    does what the driver over the decoded list does. *)
Lemma raw_driver_decoded store env no movie entries w :
  MoviesRaw.select_first store no = Some movie ->
  Movies.os_path_exists env
    (Movies.path_replace_movie env (MoviesRaw.path movie)) = true ->
  MoviesRaw.literal_eval store (MoviesRaw.missing_subtitles movie) =
    Ret (MoviesRaw.LList (map MoviesRaw.lit_of_entry entries)) ->
  exists languages w1,
    Movies.languages_loop env entries [] w = (Ret languages, w1) /\
    MoviesRaw.movies_download_subtitles store env no w =
    (Ret Movies.ONone,
     {| Movies.queries := Movies.queries w1;
        Movies.events :=
          Movies.events w1 ++
          pass_events env no (MoviesRaw.decoded movie entries) languages |}).
Proof.
  intros Hsel Hpath Hlit.
  destruct (languages_loop_returns env entries [] w)
    as [languages [w1 [Hloop _]]].
  exists languages, w1. split; [exact Hloop|].
  assert (Heval : forall w0, MoviesRaw.eval_missing store movie w0 =
            (Ret (MoviesRaw.LList (map MoviesRaw.lit_of_entry entries)), w0))
    by (intro; unfold MoviesRaw.eval_missing; now rewrite Hlit).
  unfold MoviesRaw.movies_download_subtitles.
  rewrite Hsel, Hpath. cbn [negb].
  rewrite (bind_returns _ _ w _ w (Heval w)).
  rewrite (bind_returns _ _ w (List.length entries) w).
  2:{ destruct entries as [|e rest]; [reflexivity|].
      cbn [map MoviesRaw.lit_truthy].
      rewrite (bind_returns _ _ w _ w (Heval w)).
      cbn. now rewrite length_map. }
  rewrite (bind_returns _ _ w _ w (Heval w)).
  rewrite (bind_returns
             (MoviesRaw.py_iter
                (MoviesRaw.LList (map MoviesRaw.lit_of_entry entries)))
             _ w (map MoviesRaw.lit_of_entry entries) w eq_refl).
  rewrite (bind_returns _ _ w languages w1)
    by (rewrite raw_loop_decoded; exact Hloop).
  unfold Movies.bind, Movies.emit, Movies.ret.
  cbn [Movies.queries Movies.events].
  change (MoviesRaw.path movie)
    with (Movies.path (MoviesRaw.decoded movie entries)).
  rewrite raw_handle_results_decoded, handle_results_trace.
  cbn [Movies.queries Movies.events].
  unfold pass_events, generated, audio_name, movie_path.
  cbn [MoviesRaw.decoded Movies.path Movies.missing_subtitles
         Movies.audio_language Movies.sceneName Movies.title
         Movies.profileId].
  rewrite <- !app_assoc. reflexivity.
Qed.

(** A state that ast.literal_eval rejects: its exception leaves the
    call, with nothing done. *)
Lemma undecodable_state_raises store env no movie e w :
  MoviesRaw.select_first store no = Some movie ->
  Movies.os_path_exists env
    (Movies.path_replace_movie env (MoviesRaw.path movie)) = true ->
  MoviesRaw.literal_eval store (MoviesRaw.missing_subtitles movie) =
    Raise e ->
  MoviesRaw.movies_download_subtitles store env no w = (Raise e, w).
Proof.
  intros Hsel Hpath Hlit.
  unfold MoviesRaw.movies_download_subtitles.
  rewrite Hsel, Hpath. cbn [negb].
  unfold MoviesRaw.eval_missing, Movies.bind. rewrite Hlit. reflexivity.
Qed.

(** The broken row raises the SyntaxError of ast.literal_eval; the row
    with a number in its list raises AttributeError at that entry. *)
Example bad_states_raise :
  MoviesRaw.movies_download_subtitles shelf (library 99 true) 9 start =
    (Raise SyntaxError, start) /\
  MoviesRaw.movies_download_subtitles shelf (library 99 true) 10 start =
    (Raise AttributeError,
     {| Movies.queries := 2;
        Movies.events := [Movies.EvGetProviders; Movies.EvGetProviders] |}).
Proof. split; vm_compute; reflexivity. Qed.

(** C4, amended.  An absent item is logged and the call returns; a
    missing media file makes the call raise OSError with nothing else
    done; and when the file is on disk and the stored state decodes to
    a list of strings and None, the call returns without raising,
    whatever the registry answers. *)
Theorem acquire_raises_only_by_path_guard
        (store : MoviesRaw.Store) (env : Movies.Collaborators)
        (no : Z) (w : Movies.World) :
  match MoviesRaw.select_first store no with
  | None =>
      MoviesRaw.movies_download_subtitles store env no w =
      (Ret Movies.ONone,
       {| Movies.queries := Movies.queries w;
          Movies.events :=
            Movies.events w ++
            [Movies.EvDebug not_found_msg (PyStr.str_of_Z no)] |})
  | Some movie =>
      if Movies.os_path_exists env
           (Movies.path_replace_movie env (MoviesRaw.path movie))
      then
        forall entries,
          MoviesRaw.literal_eval store (MoviesRaw.missing_subtitles movie) =
            Ret (MoviesRaw.LList (map MoviesRaw.lit_of_entry entries)) ->
          exists w',
            MoviesRaw.movies_download_subtitles store env no w =
            (Ret Movies.ONone, w')
      else
        MoviesRaw.movies_download_subtitles store env no w =
        (Raise OSError, w)
  end.
Proof.
  destruct (MoviesRaw.select_first store no) as [movie|] eqn:Hsel.
  - destruct (Movies.os_path_exists env
                (Movies.path_replace_movie env (MoviesRaw.path movie)))
      eqn:Hpath.
    + intros entries Hlit.
      destruct (raw_driver_decoded store env no movie entries w
                  Hsel Hpath Hlit) as [languages [w1 [_ Hrun]]].
      eexists. exact Hrun.
    + unfold MoviesRaw.movies_download_subtitles.
      rewrite Hsel, Hpath. reflexivity.
  - unfold MoviesRaw.movies_download_subtitles. rewrite Hsel. reflexivity.
Qed.

Lemma acquire_raises_only_by_path_guard_witness :
  (exists w',
      MoviesRaw.movies_download_subtitles shelf (library 1 true) 7 start =
      (Ret Movies.ONone, w')) /\
  MoviesRaw.movies_download_subtitles shelf (library 1 false) 7 start =
    (Raise OSError, start) /\
  MoviesRaw.movies_download_subtitles shelf (library 1 true) 8 start =
    (Ret Movies.ONone,
     {| Movies.queries := Movies.queries start;
        Movies.events :=
          Movies.events start ++
          [Movies.EvDebug not_found_msg (PyStr.str_of_Z 8)] |}).
Proof.
  split; [|split].
  - exact (acquire_raises_only_by_path_guard shelf (library 1 true) 7 start
             [Some "en"; Some "es:hi"; None; Some "fr:forced"] eq_refl).
  - exact (acquire_raises_only_by_path_guard shelf (library 1 false) 7 start).
  - exact (acquire_raises_only_by_path_guard shelf (library 1 true) 8 start).
Defined.

End RawDriver.

(* ---------------------------------------------------------------------- *)
(** * The intervals the poller sleeps                                      *)
(* ---------------------------------------------------------------------- *)

Section PollerIntervals.
Import FileFlows FileFlowsRef Samples.
Open Scope Q_scope.





(** The third poll of that wait finds Processing again: the call then
    sleeps 22.5 seconds and gives up, 49 seconds after it began
    (three requests of half a second, sleeps of 10, 15 and 22.5). *)
Example third_sleep_is_22_5 :
  exists w',
    wait_for_completion busy_service 5 ff_provider (PStr "job-42") 30
      ff_start = Some (Ret false, w') /\
    gets w' = 3%nat /\ slept w' == 10 + 15 + (45 # 2) /\ now w' == 49.
Proof.
  eexists. split; [vm_compute; reflexivity|].
  repeat split; vm_compute; reflexivity.
Qed.

End PollerIntervals.
